(** * Prediction client (HPP/client/app.js): a shallow embedding

    The page script collects twelve form fields, posts them to the
    prediction service and renders the answer.  The embedding has three
    layers:

    - [JS]: the part of the JavaScript run time the script relies on
      (numbers, values, [parseInt], [JSON.stringify], string conversion,
      [Intl.NumberFormat]);
    - [Browser]: the page as a record of the element properties the script
      touches, a journal of its outward effects, and a small monad for
      statements that mutate the page and may throw;
    - [App]: the functions of app.js, one definition per function.

    Strings are byte strings holding the UTF-8 encoding of the JavaScript
    string (form values are scalar-value strings, so the encoding is total).
    The elements looked up with [document.getElementById] are taken to exist:
    they are the markup contract of the page. *)

From Stdlib Require Import ZArith QArith Qround Bool List.
From Stdlib Require Import Ascii String DecimalString.
From Stdlib Require Import Lia Lqa Qabs.
From Stdlib Require DecimalFacts DecimalPos DecimalN Qcanon.
Import ListNotations.

Local Open Scope string_scope.
Local Open Scope Z_scope.

(** ** Text helpers *)

Module Text.

(** The double quote, which the string notation cannot hold literally. *)
Definition dquote : string := String "034"%char EmptyString.

Definition backslash : string := String "092"%char EmptyString.

Definition code (c : ascii) : Z := Z.of_nat (nat_of_ascii c).

Fixpoint join (sep : string) (parts : list string) : string :=
  match parts with
  | [] => EmptyString
  | [p] => p
  | p :: rest => p ++ sep ++ join sep rest
  end.

Fixpoint repeat_char (c : ascii) (n : nat) : string :=
  match n with
  | O => EmptyString
  | S k => String c (repeat_char c k)
  end.

Definition zeros (n : Z) : string := repeat_char "0"%char (Z.to_nat n).

Definition len (s : string) : Z := Z.of_nat (String.length s).

(** [take n s] and [drop n s]: the first [n] bytes of [s] and the rest. *)
Definition take (n : Z) (s : string) : string := substring 0 (Z.to_nat n) s.

Definition drop (n : Z) (s : string) : string :=
  substring (Z.to_nat n) (String.length s - Z.to_nat n) s.

Fixpoint rev_acc (s acc : string) : string :=
  match s with
  | EmptyString => acc
  | String c r => rev_acc r (String c acc)
  end.

Definition rev (s : string) : string := rev_acc s EmptyString.

(** Decimal digits of a non-negative integer, no sign, ["0"] for zero. *)
Definition digits (z : Z) : string := NilZero.string_of_uint (N.to_uint (Z.to_N z)).

Definition hex_digit (d : Z) : ascii :=
  if d <? 10 then ascii_of_nat (Z.to_nat (48 + d))
  else ascii_of_nat (Z.to_nat (87 + d)).

(** Thousands separators, counted from the right: [1234567] gives
    [1,234,567]. *)
Fixpoint group3_rev (s : string) : string :=
  match s with
  | String a (String b (String c ((String _ _) as more))) =>
      String a (String b (String c (String ","%char (group3_rev more))))
  | _ => s
  end.

Definition group3 (s : string) : string := rev (group3_rev (rev s)).

End Text.


(** ** The JavaScript run time used by the script *)

Module JS.

(** *** Numbers

    A Number is an IEEE binary64.  The finite non-zero ones and [+0] are
    carried as the rational they denote ([Fin q], with [Fin 0] for [+0]);
    [-0], the infinities and NaN are constructors of their own.  The type
    does not force [q] to be a binary64: the functions that produce
    numbers round with [roundToDouble], and those that print them search
    the shortest decimal that rounds back, as ECMA-262 prescribes. *)
Inductive Number : Type :=
| NaN
| Infinity (negative : bool)
| NegZero
| Fin (q : Q).

(** [q * 2^e] and [q * 10^e], for any integer [e]. *)
Definition scale (base : Z) (q : Q) (e : Z) : Q :=
  if 0 <=? e then Qmake (Qnum q * base ^ e) (Qden q)
  else Qmake (Qnum q) (Qden q * Z.to_pos (base ^ (- e))).

Definition scale2 := scale 2.
Definition scale10 := scale 10.

(** Round to the nearest integer, ties to even. *)
Definition round_half_even (q : Q) : Z :=
  let f := Qfloor q in
  match Qcompare (q - inject_Z f) (1 # 2) with
  | Lt => f
  | Gt => f + 1
  | Eq => if Z.even f then f else f + 1
  end.

(** Round half away from zero, on a non-negative rational. *)
Definition round_half_up (q : Q) : Z := Qfloor (q + (1 # 2)).

(** [floor (log2 q)] for [q > 0]. *)
Definition floor_log2 (q : Q) : Z :=
  let e0 := Z.log2 (Qnum q) - Z.log2 (Zpos (Qden q)) in
  if Qle_bool (scale2 1 e0) q then e0 else e0 - 1.

(** The binary64 nearest to a positive rational: 53 significant bits,
    exponent no lower than the subnormal one, ties to even; [None] when
    the result overflows, [Some 0] when it underflows to zero. *)
Definition round_positive (q : Q) : option Q :=
  let e := Z.max (floor_log2 q - 52) (- 1074) in
  let m := round_half_even (scale2 q (- e)) in
  let r := Qred (scale2 (inject_Z m) e) in
  if Qle_bool (inject_Z (2 ^ 1024)) r then None else Some r.

(** The Number value of a real, written F(x) in ECMA-262. *)
Definition roundToDouble (q : Q) : Number :=
  match Qnum q with
  | Z0 => Fin 0
  | Zpos _ =>
      match round_positive q with
      | Some r => Fin r
      | None => Infinity false
      end
  | Zneg _ =>
      match round_positive (- q) with
      | Some r => if Qeq_bool r 0 then NegZero else Fin (Qred (- r))
      | None => Infinity true
      end
  end.

Definition Number_eqb (a b : Number) : bool :=
  match a, b with
  | Fin x, Fin y => Qeq_bool x y
  | Infinity x, Infinity y => Bool.eqb x y
  | NegZero, NegZero => true
  | _, _ => false
  end.

(** *** Number::toString, radix 10 *)

(** The [n] with [10^(n-1) <= q < 10^n], for [q > 0]. *)
Definition decimal_exponent (q : Q) : Z :=
  let a := Text.len (Text.digits (Qnum q)) in
  let b := Text.len (Text.digits (Zpos (Qden q))) in
  if Qle_bool (scale10 1 (a - b)) q then a - b + 1 else a - b.

(** Step 5 of Number::toString: integers [s], [k], [n] with
    [10^(k-1) <= s < 10^k], [F(s * 10^(n-k)) = q] and [k] least; of two
    candidates the one nearer to [q], the even one on a tie.  A binary64
    needs at most 17 digits; the search gives up after [fuel] more digits
    and keeps the truncation, which only happens off the binary64s. *)
Fixpoint shortest_digits (fuel : nat) (k : Z) (q : Q) (n : Z) : Z * Z * Z :=
  let x := scale10 q (k - n) in
  let lo := Qfloor x in
  let hi := lo + 1 in
  let back c := Number_eqb (roundToDouble (scale10 (inject_Z c) (n - k))) (Fin q) in
  let found c := if c =? 10 ^ k then (10 ^ (k - 1), k, n + 1) else (c, k, n) in
  match back lo, back hi with
  | true, true => found (round_half_even x)
  | true, false => found lo
  | false, true => found hi
  | false, false =>
      match fuel with
      | O => (lo, k, n)
      | S fuel' => shortest_digits fuel' (k + 1) q n
      end
  end.

(** Steps 6 to 12: plain notation for [-6 < n <= 21], exponent notation
    outside. *)
Definition layout_digits (s k n : Z) : string :=
  let d := Text.digits s in
  if (k <=? n) && (n <=? 21) then d ++ Text.zeros (n - k)
  else if (0 <? n) && (n <=? 21) then Text.take n d ++ "." ++ Text.drop n d
  else if (-6 <? n) && (n <=? 0) then "0." ++ Text.zeros (- n) ++ d
  else
    let e := n - 1 in
    let sign := if e <? 0 then "-" else "+" in
    if k =? 1 then d ++ "e" ++ sign ++ Text.digits (Z.abs e)
    else Text.take 1 d ++ "." ++ Text.drop 1 d
           ++ "e" ++ sign ++ Text.digits (Z.abs e).

Definition positive_toString (q : Q) : string :=
  let '(s, k, n) := shortest_digits 20 1 q (decimal_exponent q) in
  layout_digits s k n.

Definition Number_toString (x : Number) : string :=
  match x with
  | NaN => "NaN"
  | NegZero => "0"
  | Infinity false => "Infinity"
  | Infinity true => "-Infinity"
  | Fin q =>
      match Qnum q with
      | Z0 => "0"
      | Zpos _ => positive_toString q
      | Zneg _ => "-" ++ positive_toString (- q)
      end
  end.

(** *** Values, exceptions and completions

    The values that occur in the script are those of JSON, plus
    [undefined].  [VObj members] lists the own properties of an ordinary
    object in the order [[OwnPropertyKeys]] gives them, with distinct keys;
    none of them is callable, as the objects come from an object literal or
    from [JSON.parse]. *)
#[local] Set Warnings "-register-all".

Inductive JSValue : Type :=
| VUndefined
| VNull
| VBool (b : bool)
| VNum (n : Number)
| VStr (s : string)
| VArr (items : list JSValue)
| VObj (members : list (string * JSValue)).

Inductive Exception : Type :=
| TypeError (message : string)
| SyntaxError (message : string)
| Error (message : string).

(** The outcome of evaluating an expression: a value, or a throw. *)
Inductive Completion (A : Type) : Type :=
| Normal (a : A)
| Throw (e : Exception).

Arguments Normal {A} a.
Arguments Throw {A} e.

Definition andThen {A B} (c : Completion A) (k : A -> Completion B)
  : Completion B :=
  match c with
  | Normal a => k a
  | Throw e => Throw e
  end.

(** ToBoolean: the falsy values are [undefined], [null], [false], [+0],
    [-0], [NaN] and the empty string. *)
Definition ToBoolean (v : JSValue) : bool :=
  match v with
  | VUndefined | VNull => false
  | VBool b => b
  | VNum NaN | VNum NegZero => false
  | VNum (Infinity _) => true
  | VNum (Fin q) => negb (Qnum q =? 0)
  | VStr EmptyString => false
  | VStr _ => true
  | VArr _ | VObj _ => true
  end.

Fixpoint own_property (members : list (string * JSValue)) (key : string)
  : option JSValue :=
  match members with
  | [] => None
  | (k, v) :: rest => if String.eqb k key then Some v else own_property rest key
  end.

(** [v.key] for a key that no prototype defines ([estimated_price],
    [error]): the own property of an object, [undefined] on every other
    value, a TypeError on [null] and [undefined]. *)
Definition Get (v : JSValue) (key : string) : Completion JSValue :=
  match v with
  | VUndefined | VNull =>
      Throw (TypeError ("Cannot read properties of null or undefined, reading " ++ key))
  | VObj members =>
      match own_property members key with
      | Some x => Normal x
      | None => Normal VUndefined
      end
  | _ => Normal VUndefined
  end.

Definition not_primitive : Exception :=
  TypeError "Cannot convert object to primitive value".

(** ToString.  An array goes through [Array.prototype.join]: [undefined]
    and [null] elements give the empty string, the others their ToString.
    An object reaches [Object.prototype.toString], unless an own
    [toString] property shadows it: that one is not callable, and neither
    [valueOf] yields a primitive, so OrdinaryToPrimitive throws. *)
Fixpoint ToString (v : JSValue) : Completion string :=
  match v with
  | VUndefined => Normal "undefined"
  | VNull => Normal "null"
  | VBool true => Normal "true"
  | VBool false => Normal "false"
  | VNum n => Normal (Number_toString n)
  | VStr s => Normal s
  | VArr items =>
      let fix elements (l : list JSValue) : Completion (list string) :=
        match l with
        | [] => Normal []
        | x :: rest =>
            andThen
              match x with
              | VUndefined | VNull => Normal EmptyString
              | _ => ToString x
              end
              (fun s => andThen (elements rest) (fun ss => Normal (s :: ss)))
        end in
      andThen (elements items) (fun ss => Normal (Text.join "," ss))
  | VObj members =>
      match own_property members "toString" with
      | Some _ => Throw not_primitive
      | None => Normal "[object Object]"
      end
  end.

(** ToPrimitive, with either hint: on these values both orders of
    [valueOf] and [toString] end in the same string or the same throw. *)
Definition ToPrimitive (v : JSValue) : Completion JSValue :=
  match v with
  | VArr _ | VObj _ => andThen (ToString v) (fun s => Normal (VStr s))
  | _ => Normal v
  end.

(** *** parseInt *)

Definition ascii_space (c : ascii) : bool :=
  let n := Text.code c in
  ((9 <=? n) && (n <=? 13)) || (n =? 32).

(** The white space and line terminators of more than one byte: U+00A0
    in two bytes; U+1680, U+2000 to U+200A, U+2028, U+2029, U+202F,
    U+205F, U+3000 and U+FEFF in three. *)
Definition wide_space2 (a b : ascii) : bool :=
  (Text.code a =? 194) && (Text.code b =? 160).

Definition wide_space3 (a b c : ascii) : bool :=
  let x := Text.code a in
  let y := Text.code b in
  let z := Text.code c in
  ((x =? 225) && (y =? 154) && (z =? 128))
  || ((x =? 226) && (y =? 128)
      && (((128 <=? z) && (z <=? 138)) || (z =? 168) || (z =? 169) || (z =? 175)))
  || ((x =? 226) && (y =? 129) && (z =? 159))
  || ((x =? 227) && (y =? 128) && (z =? 128))
  || ((x =? 239) && (y =? 187) && (z =? 191)).

(** TrimString(s, start). *)
Fixpoint trim_start (s : string) : string :=
  match s with
  | EmptyString => s
  | String a r =>
      if ascii_space a then trim_start r
      else
        match r with
        | String b r2 =>
            if wide_space2 a b then trim_start r2
            else
              match r2 with
              | String c r3 => if wide_space3 a b c then trim_start r3 else s
              | EmptyString => s
              end
        | EmptyString => s
        end
  end.

Definition digit_value (c : ascii) : option Z :=
  let n := Text.code c in
  if (48 <=? n) && (n <=? 57) then Some (n - 48)
  else if (97 <=? n) && (n <=? 122) then Some (n - 87)
  else if (65 <=? n) && (n <=? 90) then Some (n - 55)
  else None.

(** The longest prefix of radix-[R] digits, as digit values, and what
    follows it. *)
Fixpoint digits_prefix (R : Z) (s : string) : list Z * string :=
  match s with
  | EmptyString => ([], s)
  | String c r =>
      match digit_value c with
      | Some d =>
          if d <? R then
            let '(ds, rest) := digits_prefix R r in (d :: ds, rest)
          else ([], s)
      | None => ([], s)
      end
  end.

Definition radix_value (R : Z) (ds : list Z) : Z :=
  fold_left (fun acc d => acc * R + d) ds 0.

(** [parseInt(string)] with no radix argument: leading white space and
    one sign are dropped, a [0x] prefix selects radix 16, the digits up to
    the first other character are read; no digit gives NaN.  (ECMA-262
    lets an implementation approximate past the 20th decimal digit; the
    integer is taken exactly here, then rounded to a Number.) *)
Definition parseInt_string (inputString : string) : Number :=
  let trimmed := trim_start inputString in
  let '(negative, unsigned) :=
    match trimmed with
    | String "-" r => (true, r)
    | String "+" r => (false, r)
    | _ => (false, trimmed)
    end in
  let '(R, body) :=
    match unsigned with
    | String "0" (String "x" r) => (16, r)
    | String "0" (String "X" r) => (16, r)
    | _ => (10, unsigned)
    end in
  match fst (digits_prefix R body) with
  | [] => NaN
  | ds =>
      let mathInt := radix_value R ds in
      if mathInt =? 0 then (if negative then NegZero else Fin 0)
      else roundToDouble (inject_Z (if negative then - mathInt else mathInt))
  end.

Definition parseInt (v : JSValue) : Completion Number :=
  andThen (ToString v) (fun s => Normal (parseInt_string s)).

(** *** JSON.stringify *)

Definition escape_char (c : ascii) : string :=
  let n := Text.code c in
  if n =? 8 then "\b"
  else if n =? 9 then "\t"
  else if n =? 10 then "\n"
  else if n =? 12 then "\f"
  else if n =? 13 then "\r"
  else if n =? 34 then Text.backslash ++ Text.dquote
  else if n =? 92 then Text.backslash ++ Text.backslash
  else if n <? 32 then
    "\u00" ++ String (Text.hex_digit (n / 16))
                (String (Text.hex_digit (n mod 16)) EmptyString)
  else String c EmptyString.

Fixpoint escape (s : string) : string :=
  match s with
  | EmptyString => EmptyString
  | String c r => escape_char c ++ escape r
  end.

Definition QuoteJSONString (s : string) : string :=
  Text.dquote ++ escape s ++ Text.dquote.

(** SerializeJSONProperty; [None] is [undefined].  A number that is not
    finite is written [null]; an [undefined] array element is written
    [null], an [undefined] property is left out. *)
Fixpoint SerializeJSONProperty (v : JSValue) : option string :=
  match v with
  | VUndefined => None
  | VNull => Some "null"
  | VBool true => Some "true"
  | VBool false => Some "false"
  | VStr s => Some (QuoteJSONString s)
  | VNum (Fin q) => Some (Number_toString (Fin q))
  | VNum NegZero => Some (Number_toString NegZero)
  | VNum NaN | VNum (Infinity _) => Some "null"
  | VArr items =>
      let element x :=
        match SerializeJSONProperty x with
        | Some text => text
        | None => "null"
        end in
      Some ("[" ++ Text.join "," (map element items) ++ "]")
  | VObj members =>
      let fix properties (l : list (string * JSValue)) : list string :=
        match l with
        | [] => []
        | (k, x) :: rest =>
            match SerializeJSONProperty x with
            | Some text => (QuoteJSONString k ++ ":" ++ text) :: properties rest
            | None => properties rest
            end
        end in
      Some ("{" ++ Text.join "," (properties members) ++ "}")
  end.

Definition JSON_stringify (v : JSValue) : option string :=
  SerializeJSONProperty v.

(** *** Intl.NumberFormat

    [format] works on a decimal value.  A Number is formatted from its
    shortest round-trip digits, those of [Number_toString], not from its
    exact binary value; a string is converted to a Number first, so that
    its literal is rounded to a double and overflows to an infinity. *)
Inductive MathValue : Type :=
| MNaN
| MInfinity (negative : bool)
| MNegZero
| MReal (q : Q).

Definition all_space (s : string) : bool :=
  match trim_start s with
  | EmptyString => true
  | _ => false
  end.

Fixpoint strip_prefix (p s : string) : option string :=
  match p, s with
  | EmptyString, _ => Some s
  | String a p', String b s' => if Ascii.eqb a b then strip_prefix p' s' else None
  | String _ _, EmptyString => None
  end.

(** [0x], [0o] and [0b] literals: unsigned, at least one digit. *)
Definition non_decimal_literal (s : string) : option (Z * string) :=
  let radix :=
    match s with
    | String "0" (String m r) =>
        if orb (Ascii.eqb m "x") (Ascii.eqb m "X") then Some (16, r)
        else if orb (Ascii.eqb m "o") (Ascii.eqb m "O") then Some (8, r)
        else if orb (Ascii.eqb m "b") (Ascii.eqb m "B") then Some (2, r)
        else None
    | _ => None
    end in
  match radix with
  | Some (R, r) =>
      match digits_prefix R r with
      | ([], _) => None
      | (ds, rest) => Some (radix_value R ds, rest)
      end
  | None => None
  end.

(** ExponentPart, when one starts here: [e] or [E], an optional sign, at
    least one digit.  [Some None] reports an exponent mark with no digit
    after it, which no literal allows. *)
Definition exponent_part (s : string) : option (option (Z * string)) :=
  match s with
  | String m r =>
      if orb (Ascii.eqb m "e") (Ascii.eqb m "E") then
        let '(negative, r) :=
          match r with
          | String "-" r' => (true, r')
          | String "+" r' => (false, r')
          | _ => (false, r)
          end in
        match digits_prefix 10 r with
        | ([], _) => Some None
        | (ds, rest) =>
            let e := radix_value 10 ds in
            Some (Some (if negative then - e else e, rest))
        end
      else None
  | EmptyString => None
  end.

(** StrUnsignedDecimalLiteral other than [Infinity], and what follows. *)
Definition unsigned_decimal (s : string) : option (Q * string) :=
  let '(ip, r1) := digits_prefix 10 s in
  let '(fp, r2) :=
    match r1 with
    | String "." r => digits_prefix 10 r
    | _ => ([], r1)
    end in
  match ip ++ fp with
  | [] => None
  | mantissa =>
      let m := radix_value 10 mantissa in
      let shift := Z.of_nat (List.length fp) in
      match exponent_part r2 with
      | None => Some (Qred (scale10 (inject_Z m) (- shift)), r2)
      | Some None => None
      | Some (Some (e, r3)) => Some (Qred (scale10 (inject_Z m) (e - shift)), r3)
      end
  end%list.

(** The exact value of a string as a StringNumericLiteral, before any
    rounding: white space around it is dropped, the empty literal is 0,
    anything that is not a literal is NaN. *)
Definition StringToMathValue (str : string) : MathValue :=
  let t := trim_start str in
  match t with
  | EmptyString => MReal 0
  | _ =>
      match non_decimal_literal t with
      | Some (z, rest) => if all_space rest then MReal (inject_Z z) else MNaN
      | None =>
          let '(negative, u) :=
            match t with
            | String "-" r => (true, r)
            | String "+" r => (false, r)
            | _ => (false, t)
            end in
          match strip_prefix "Infinity" u with
          | Some rest => if all_space rest then MInfinity negative else MNaN
          | None =>
              match unsigned_decimal u with
              | Some (q, rest) =>
                  if all_space rest then
                    if Qnum q =? 0 then (if negative then MNegZero else MReal 0)
                    else MReal (if negative then Qred (- q) else q)
                  else MNaN
              | None => MNaN
              end
          end
      end
  end.

(** StringToNumber: the literal's value rounded to a double. *)
Definition StringToNumber (str : string) : Number :=
  match StringToMathValue str with
  | MNaN => NaN
  | MInfinity s => Infinity s
  | MNegZero => NegZero
  | MReal q => roundToDouble q
  end.

(** The decimal value [format] works on: for a finite Number that of the
    digits [Number_toString] gives it, the exponent form of the large and
    the small ones included ([2^54 + 8] is formatted as
    18014398509481990). *)
Definition NumberToMathValue (n : Number) : MathValue :=
  match n with
  | NaN => MNaN
  | Infinity s => MInfinity s
  | NegZero => MNegZero
  | Fin q => StringToMathValue (Number_toString (Fin q))
  end.

Definition ToIntlMathematicalValue (v : JSValue) : Completion MathValue :=
  andThen (ToPrimitive v) (fun prim =>
    match prim with
    | VStr s => Normal (NumberToMathValue (StringToNumber s))
    | VUndefined => Normal MNaN
    | VNull => Normal (MReal 0)
    | VBool true => Normal (MReal 1)
    | VBool false => Normal (MReal 0)
    | VNum n => Normal (NumberToMathValue n)
    | VArr _ | VObj _ => Throw not_primitive
    end).

(** The integer digits of a non-negative value with no fraction digit
    (rounding mode halfExpand), in groups of three. *)
Definition integer_digits (q : Q) : string :=
  Text.group3 (Text.digits (round_half_up q)).

(** [new Intl.NumberFormat('en-US', {style: 'currency', currency: 'USD',
    minimumFractionDigits: 0, maximumFractionDigits: 0}).format]: the
    pattern is [$#,##0], a minus sign before the currency sign for the
    negative values, negative zero included. *)
Definition format_en_US_USD_0 (x : MathValue) : string :=
  match x with
  | MNaN => "$NaN"
  | MInfinity false => "$∞"
  | MInfinity true => "-$∞"
  | MNegZero => "-$0"
  | MReal q =>
      if Qnum q <? 0 then "-$" ++ integer_digits (- q)
      else "$" ++ integer_digits q
  end.

End JS.

(** ** The page *)

Module Browser.

Import JS.

(** The element properties the script assigns, named element then
    property ([style.display] and [style.opacity] for the last two kinds). *)
Inductive Slot : Type :=
| ApiStatusClassName
| ApiStatusTextContent
| ApiStatusDisplay
| BtnTextOpacity
| LoadingDisplay
| ResultClassName
| ResultInnerHTML
| ResultDisplay.

(** The two arrow functions handed to [setTimeout]. *)
Inductive Callback : Type :=
| HideApiStatus
| HideResult.

Record Request : Type := {
  url : string;
  method : string;
  headers : list (string * string);
  body : option string
}.

(** What the script can observe of a response: the status, and the
    outcome of [response.json()], a throw when the body is not JSON. *)
Record Response : Type := {
  status : Z;
  json : Completion JSValue
}.

Definition ok (r : Response) : bool :=
  (200 <=? status r) && (status r <=? 299).

(** What the network does with one [fetch]: the promise rejects, or it
    resolves to a response, whatever its status. *)
Inductive Network : Type :=
| Rejects (e : Exception)
| Resolves (r : Response).

(** The outward effects, in the order they happen. *)
Inductive Effect : Type :=
| PreventDefault
| Assign (slot : Slot) (value : string)
| SetDisabled (value : bool)
| Fetch (request : Request)
| SetTimeout (callback : Callback) (delay : Z)
| ConsoleError (label : string) (error : Exception).

Record Page : Type := {
  apiStatus_className : string;
  apiStatus_textContent : string;
  apiStatus_display : string;
  predictBtn_disabled : bool;
  btnText_opacity : string;
  loading_display : string;
  result_className : string;
  result_innerHTML : string;
  result_display : string;
  journal : list Effect
}.

Definition record (e : Effect) (p : Page) : Page :=
  {| apiStatus_className := apiStatus_className p;
     apiStatus_textContent := apiStatus_textContent p;
     apiStatus_display := apiStatus_display p;
     predictBtn_disabled := predictBtn_disabled p;
     btnText_opacity := btnText_opacity p;
     loading_display := loading_display p;
     result_className := result_className p;
     result_innerHTML := result_innerHTML p;
     result_display := result_display p;
     journal := journal p ++ [e] |}.

Definition read (slot : Slot) (p : Page) : string :=
  match slot with
  | ApiStatusClassName => apiStatus_className p
  | ApiStatusTextContent => apiStatus_textContent p
  | ApiStatusDisplay => apiStatus_display p
  | BtnTextOpacity => btnText_opacity p
  | LoadingDisplay => loading_display p
  | ResultClassName => result_className p
  | ResultInnerHTML => result_innerHTML p
  | ResultDisplay => result_display p
  end.

Definition Slot_eqb (a b : Slot) : bool :=
  match a, b with
  | ApiStatusClassName, ApiStatusClassName
  | ApiStatusTextContent, ApiStatusTextContent
  | ApiStatusDisplay, ApiStatusDisplay
  | BtnTextOpacity, BtnTextOpacity
  | LoadingDisplay, LoadingDisplay
  | ResultClassName, ResultClassName
  | ResultInnerHTML, ResultInnerHTML
  | ResultDisplay, ResultDisplay => true
  | _, _ => false
  end.

(** [slot = value]: the property changes and the write is journalled. *)
Definition write (slot : Slot) (value : string) (p : Page) : Page :=
  let now s := if Slot_eqb s slot then value else read s p in
  {| apiStatus_className := now ApiStatusClassName;
     apiStatus_textContent := now ApiStatusTextContent;
     apiStatus_display := now ApiStatusDisplay;
     predictBtn_disabled := predictBtn_disabled p;
     btnText_opacity := now BtnTextOpacity;
     loading_display := now LoadingDisplay;
     result_className := now ResultClassName;
     result_innerHTML := now ResultInnerHTML;
     result_display := now ResultDisplay;
     journal := journal p ++ [Assign slot value] |}.

Definition write_disabled (value : bool) (p : Page) : Page :=
  {| apiStatus_className := apiStatus_className p;
     apiStatus_textContent := apiStatus_textContent p;
     apiStatus_display := apiStatus_display p;
     predictBtn_disabled := value;
     btnText_opacity := btnText_opacity p;
     loading_display := loading_display p;
     result_className := result_className p;
     result_innerHTML := result_innerHTML p;
     result_display := result_display p;
     journal := journal p ++ [SetDisabled value] |}.

(** *** Statements

    A statement runs on a page and completes normally or throws; what it
    did to the page before a throw stays done. *)
Definition Script (A : Type) : Type := Page -> Completion A * Page.

Definition ret {A} (a : A) : Script A := fun p => (Normal a, p).

Definition throw {A} (e : Exception) : Script A := fun p => (Throw e, p).

Definition bind {A B} (c : Script A) (k : A -> Script B) : Script B :=
  fun p =>
    match c p with
    | (Normal a, p') => k a p'
    | (Throw e, p') => (Throw e, p')
    end.

Definition lift {A} (c : Completion A) : Script A := fun p => (c, p).

Definition effect (e : Effect) : Script unit := fun p => (Normal tt, record e p).

Definition assign (slot : Slot) (value : string) : Script unit :=
  fun p => (Normal tt, write slot value p).

Definition set_disabled (value : bool) : Script unit :=
  fun p => (Normal tt, write_disabled value p).

(** [try { block } catch (error) { handler }]. *)
Definition try_catch {A} (block : Script A) (handler : Exception -> Script A)
  : Script A :=
  fun p =>
    match block p with
    | (Normal a, p') => (Normal a, p')
    | (Throw e, p') => handler e p'
    end.

(** [try { block } finally { cleanup }]: the cleanup runs on every
    completion of the block; the block's completion stands unless the
    cleanup itself throws. *)
Definition try_finally {A} (block : Script A) (cleanup : Script unit)
  : Script A :=
  fun p =>
    match block p with
    | (c, p') =>
        match cleanup p' with
        | (Normal _, p'') => (c, p'')
        | (Throw e, p'') => (Throw e, p'')
        end
    end.

(** [await fetch(request)]: the request leaves, the network decides. *)
Definition fetch (request : Request) (net : Network) : Script Response :=
  bind (effect (Fetch request)) (fun _ =>
    match net with
    | Rejects e => throw e
    | Resolves r => ret r
    end).

Definition setTimeout (callback : Callback) (delay : Z) : Script unit :=
  effect (SetTimeout callback delay).

Definition console_error (label : string) (error : Exception) : Script unit :=
  effect (ConsoleError label error).

(** The timer firing. *)
Definition run_callback (callback : Callback) : Script unit :=
  match callback with
  | HideApiStatus => assign ApiStatusDisplay "none"
  | HideResult => assign ResultDisplay "none"
  end.

(** What a run added to the journal. *)
Definition added (before after : Page) : list Effect :=
  skipn (List.length (journal before)) (journal after).

Definition is_enable (e : Effect) : bool :=
  match e with
  | SetDisabled false => true
  | _ => false
  end.

Definition is_timeout (e : Effect) : bool :=
  match e with
  | SetTimeout _ _ => true
  | _ => false
  end.

Definition requests (l : list Effect) : list Request :=
  flat_map (fun e => match e with Fetch r => [r] | _ => [] end) l.

End Browser.

Declare Scope script_scope.
Delimit Scope script_scope with script.
Notation "x <- c ;; k" := (Browser.bind c (fun x => k))
  (at level 61, c at next level, right associativity) : script_scope.
Notation "c ;; k" := (Browser.bind c (fun _ => k))
  (at level 61, right associativity) : script_scope.

(** ** app.js *)

Module App.

Import JS Browser.
Local Open Scope script_scope.

Definition API_BASE_URL : string := "/api".

(** [checkApiStatus()], with the answer of the network to its request. *)
Definition checkApiStatus (net : Network) : Script unit :=
  try_catch
    (response <- fetch {| url := API_BASE_URL ++ "/";
                          method := "GET";
                          headers := [];
                          body := None |} net ;;
     if ok response then
       assign ApiStatusClassName "api-status online" ;;
       assign ApiStatusTextContent "✅ API Connected" ;;
       assign ApiStatusDisplay "block" ;;
       setTimeout HideApiStatus 3000
     else
       throw (Error "API not responding"))
    (fun error =>
       assign ApiStatusClassName "api-status offline" ;;
       assign ApiStatusTextContent "❌ API Offline - Please start the Flask server" ;;
       assign ApiStatusDisplay "block").

(** [formatPrice(price)]. *)
Definition formatPrice (price : JSValue) : Completion string :=
  andThen (ToIntlMathematicalValue price)
          (fun x => Normal (format_en_US_USD_0 x)).

(** [setLoading(isLoading)]. *)
Definition setLoading (isLoading : bool) : Script unit :=
  if isLoading then
    set_disabled true ;;
    assign BtnTextOpacity "0" ;;
    assign LoadingDisplay "block"
  else
    set_disabled false ;;
    assign BtnTextOpacity "1" ;;
    assign LoadingDisplay "none".

(** The two template literals of [showResult]. *)
Definition price_markup (formatted : string) : string :=
  "
            <div>🎉 Estimated Property Value</div>
            <div class=" ++ Text.dquote ++ "price-display" ++ Text.dquote ++ ">"
    ++ formatted ++ "</div>
            <div style=" ++ Text.dquote
    ++ "margin-top: 10px; font-size: 0.9rem; opacity: 0.9;" ++ Text.dquote ++ ">
                *Estimate based on provided features
            </div>
        ".

Definition message_markup (isError : bool) (message : string) : string :=
  "<div>" ++ (if isError then "❌" else "✅") ++ " " ++ message ++ "</div>".

(** [showResult(message, isError = false, price = null)]; the call sites
    write the defaults out. *)
Definition showResult (message : JSValue) (isError : bool) (price : JSValue)
  : Script unit :=
  assign ResultClassName ("result " ++ (if isError then "error" else "success")) ;;
  (if ToBoolean price && negb isError then
     formatted <- lift (formatPrice price) ;;
     assign ResultInnerHTML (price_markup formatted)
   else
     text <- lift (ToString message) ;;
     assign ResultInnerHTML (message_markup isError text)) ;;
  assign ResultDisplay "block" ;;
  if negb isError then setTimeout HideResult 10000 else ret tt.

(** The entry list of [new FormData(form)]: names and values in document
    order.  [get] answers the first value under a name, [null] when there
    is none. *)
Definition FormData : Type := list (string * string).

Fixpoint FormData_get (formData : FormData) (name : string) : JSValue :=
  match formData with
  | [] => VNull
  | (n, v) :: rest => if String.eqb n name then VStr v else FormData_get rest name
  end.

(** The array literal [inputFeatures]. *)
Definition inputFeatures (formData : FormData) : Script (list JSValue) :=
  area <- lift (parseInt (FormData_get formData "area")) ;;
  bedrooms <- lift (parseInt (FormData_get formData "bedrooms")) ;;
  bathrooms <- lift (parseInt (FormData_get formData "bathrooms")) ;;
  stories <- lift (parseInt (FormData_get formData "stories")) ;;
  parking <- lift (parseInt (FormData_get formData "parking")) ;;
  ret [ VNum area;
        VNum bedrooms;
        VNum bathrooms;
        VNum stories;
        FormData_get formData "mainroad";
        FormData_get formData "guestroom";
        FormData_get formData "basement";
        FormData_get formData "hotwaterheating";
        FormData_get formData "airconditioning";
        VNum parking;
        FormData_get formData "prefarea";
        FormData_get formData "furnishingstatus" ].

Definition prediction_request (features : list JSValue) : Request :=
  {| url := API_BASE_URL ++ "/get_predicted_price";
     method := "POST";
     headers := [("Content-Type", "application/json")];
     body := JSON_stringify (VObj [("input", VArr features)]) |}.

(** The submit listener of [predictionForm], run on the entries of the
    form with the answer of the network to its request. *)
Definition onSubmit (formData : FormData) (net : Network) : Script unit :=
  effect PreventDefault ;;
  setLoading true ;;
  try_finally
    (try_catch
       (features <- inputFeatures formData ;;
        response <- fetch (prediction_request features) net ;;
        data <- lift (json response) ;;
        accepted <- (if ok response then
                       price <- lift (Get data "estimated_price") ;;
                       ret (ToBoolean price)
                     else ret false) ;;
        if accepted : bool then
          price <- lift (Get data "estimated_price") ;;
          showResult (VStr EmptyString) false price
        else
          error <- lift (Get data "error") ;;
          showResult (if ToBoolean error then error else VStr "Prediction failed")
                     true VNull)
       (fun error =>
          console_error "Error:" error ;;
          showResult
            (VStr "Network error - please check if the API server is running")
            true VNull))
    (setLoading false).

End App.

(** ** Runs of the script

    Names for the pages the functions of app.js leave behind, and for the
    parts of the submit listener, used to state what a run does. *)

Module Runs.

Import JS Browser App.
Local Open Scope script_scope.

(** The page after [setLoading(true)] and after [setLoading(false)]. *)
Definition loading_on (p : Page) : Page :=
  write LoadingDisplay "block" (write BtnTextOpacity "0" (write_disabled true p)).

Definition loading_off (p : Page) : Page :=
  write LoadingDisplay "none" (write BtnTextOpacity "1" (write_disabled false p)).

(** The page after [showResult] has rendered an error message, and after
    it has rendered a price. *)
Definition shown_error (text : string) (p : Page) : Page :=
  write ResultDisplay "block"
    (write ResultInnerHTML (message_markup true text)
       (write ResultClassName "result error" p)).

Definition shown_price (formatted : string) (p : Page) : Page :=
  record (SetTimeout HideResult 10000)
    (write ResultDisplay "block"
       (write ResultInnerHTML (price_markup formatted)
          (write ResultClassName "result success" p))).

Definition network_error : string :=
  "Network error - please check if the API server is running".

(** The page after the [catch] block has handled [e]. *)
Definition caught (e : Exception) (p : Page) : Page :=
  shown_error network_error (record (ConsoleError "Error:" e) p).

(** The page after the status check found the service offline, and
    after it found it connected. *)
Definition status_request : Request :=
  {| url := "/api/"; method := "GET"; headers := []; body := None |}.

Definition offline (p : Page) : Page :=
  write ApiStatusDisplay "block"
    (write ApiStatusTextContent "❌ API Offline - Please start the Flask server"
       (write ApiStatusClassName "api-status offline"
          (record (Fetch status_request) p))).

Definition online (p : Page) : Page :=
  record (SetTimeout HideApiStatus 3000)
    (write ApiStatusDisplay "block"
       (write ApiStatusTextContent "✅ API Connected"
          (write ApiStatusClassName "api-status online"
             (record (Fetch status_request) p)))).

(** Whether the status request was answered with a success status. *)
Definition answered (net : Network) : bool :=
  match net with
  | Rejects _ => false
  | Resolves r => ok r
  end.

(** The string a form entry is read as by [parseInt]: its value, or
    ["null"] when the form has no such entry. *)
Definition field_text (formData : FormData) (name : string) : string :=
  match FormData_get formData name with
  | VStr s => s
  | _ => "null"
  end.

Definition field_number (formData : FormData) (name : string) : Number :=
  parseInt_string (field_text formData name).

(** The value of the array literal [inputFeatures]. *)
Definition features (formData : FormData) : list JSValue :=
  [ VNum (field_number formData "area");
    VNum (field_number formData "bedrooms");
    VNum (field_number formData "bathrooms");
    VNum (field_number formData "stories");
    FormData_get formData "mainroad";
    FormData_get formData "guestroom";
    FormData_get formData "basement";
    FormData_get formData "hotwaterheating";
    FormData_get formData "airconditioning";
    VNum (field_number formData "parking");
    FormData_get formData "prefarea";
    FormData_get formData "furnishingstatus" ].

(** The page once the request of a submission has left. *)
Definition sent (formData : FormData) (p : Page) : Page :=
  record (Fetch (prediction_request (features formData)))
    (loading_on (record PreventDefault p)).

(** The statements of the [try] block that follow the [fetch]. *)
Definition respond (response : Response) : Script unit :=
  data <- lift (json response) ;;
  accepted <- (if ok response then
                 price <- lift (Get data "estimated_price") ;;
                 ret (ToBoolean price)
               else ret false) ;;
  if accepted : bool then
    price <- lift (Get data "estimated_price") ;;
    showResult (VStr EmptyString) false price
  else
    error <- lift (Get data "error") ;;
    showResult (if ToBoolean error then error else VStr "Prediction failed")
               true VNull.

(** The text one array element has in the body: SerializeJSONProperty,
    with [null] for [undefined]. *)
Definition entry_text (v : JSValue) : string :=
  match SerializeJSONProperty v with
  | Some text => text
  | None => "null"
  end.

(** The body of a prediction request, from the texts of its elements. *)
Definition body_of (entries : list string) : string :=
  "{" ++ QuoteJSONString "input" ++ ":[" ++ Text.join "," entries ++ "]}".

(** The twelve field names, in the order of the array, and the positions
    of those read with [parseInt]. *)
Definition field_names : list string :=
  [ "area"; "bedrooms"; "bathrooms"; "stories"; "mainroad"; "guestroom";
    "basement"; "hotwaterheating"; "airconditioning"; "parking";
    "prefarea"; "furnishingstatus" ].

Definition integer_fields : list (nat * string) :=
  [ (0, "area"); (1, "bedrooms"); (2, "bathrooms"); (3, "stories");
    (9, "parking") ]%nat.

Definition present (formData : FormData) (name : string) : bool :=
  match FormData_get formData name with
  | VStr _ => true
  | _ => false
  end.

Definition all_present (formData : FormData) : bool :=
  forallb (present formData) field_names.

(** The raw value of an entry that is present. *)
Definition raw (formData : FormData) (name : string) : string :=
  match FormData_get formData name with
  | VStr s => s
  | _ => EmptyString
  end.

(** A page with nothing set, and the values the page puts in the form when
    it has loaded (app.js, the DOMContentLoaded listener), for examples. *)
Definition blank : Page :=
  {| apiStatus_className := EmptyString;
     apiStatus_textContent := EmptyString;
     apiStatus_display := EmptyString;
     predictBtn_disabled := false;
     btnText_opacity := EmptyString;
     loading_display := EmptyString;
     result_className := EmptyString;
     result_innerHTML := EmptyString;
     result_display := EmptyString;
     journal := [] |}.

Definition sample_form : FormData :=
  [ ("area", "7420"); ("bedrooms", "4"); ("bathrooms", "2"); ("stories", "3");
    ("mainroad", "yes"); ("guestroom", "no"); ("basement", "no");
    ("hotwaterheating", "no"); ("airconditioning", "yes"); ("parking", "2");
    ("prefarea", "yes"); ("furnishingstatus", "furnished") ].

Definition no_enable (l : list Effect) : bool :=
  forallb (fun e => negb (is_enable e)) l.

Definition no_timeout (l : list Effect) : bool :=
  forallb (fun e => negb (is_timeout e)) l.

(** The effects of rendering: property writes other than [disabled],
    timers and console output. *)
Definition rendering (e : Effect) : bool :=
  match e with
  | Assign _ _ | SetTimeout _ _ | ConsoleError _ _ => true
  | PreventDefault | SetDisabled _ | Fetch _ => false
  end.

(** A statement that only renders: whatever it does, it adds rendering
    effects to the journal and leaves the submit control alone. *)
Definition steady {A} (c : Script A) : Prop :=
  forall p, exists l,
    journal (snd (c p)) = (journal p ++ l)%list
    /\ forallb rendering l = true
    /\ predictBtn_disabled (snd (c p)) = predictBtn_disabled p.

(** The [catch] block of the submit listener. *)
Definition handler (error : Exception) : Script unit :=
  console_error "Error:" error ;;
  showResult (VStr network_error) true VNull.

(** The effects that open every submission and those that close it. *)
Definition opening : list Effect :=
  [ PreventDefault; SetDisabled true; Assign BtnTextOpacity "0";
    Assign LoadingDisplay "block" ].

Definition closing : list Effect :=
  [ SetDisabled false; Assign BtnTextOpacity "1"; Assign LoadingDisplay "none" ].

(** How a submission fails in transit: [fetch] rejects, or
    [response.json()] does. *)
Definition fails_with (net : Network) (e : Exception) : Prop :=
  match net with
  | Rejects e' => e' = e
  | Resolves r => json r = Throw e
  end.

Definition quoted (s : string) : string := Text.dquote ++ s ++ Text.dquote.

(** The sample form with a word in the area field. *)
Definition worded_form : FormData :=
  ("area", "abc") :: tl sample_form.

End Runs.

(** ** Reading formatted text back *)

Module Reading.

Import JS.

(** A formatted number with its thousands separators taken out. *)
Fixpoint without_commas (s : string) : string :=
  match s with
  | EmptyString => EmptyString
  | String c r =>
      if Ascii.eqb c ","%char then without_commas r
      else String c (without_commas r)
  end.

(** The digits of a decimal numeral, most significant first. *)
Fixpoint uint_digits (d : Decimal.uint) : list Z :=
  match d with
  | Decimal.Nil => []
  | Decimal.D0 r => 0 :: uint_digits r
  | Decimal.D1 r => 1 :: uint_digits r
  | Decimal.D2 r => 2 :: uint_digits r
  | Decimal.D3 r => 3 :: uint_digits r
  | Decimal.D4 r => 4 :: uint_digits r
  | Decimal.D5 r => 5 :: uint_digits r
  | Decimal.D6 r => 6 :: uint_digits r
  | Decimal.D7 r => 7 :: uint_digits r
  | Decimal.D8 r => 8 :: uint_digits r
  | Decimal.D9 r => 9 :: uint_digits r
  end.

(** What may follow the digits of an integer field for [parseInt] to stop
    there: nothing, or a character that is neither a digit nor a letter. *)
Definition stops_parseInt (tail : string) : bool :=
  match tail with
  | EmptyString => true
  | String c _ =>
      match digit_value c with
      | None => true
      | Some _ => false
      end
  end.

(** A numeral whose first digit is not zero. *)
Definition leading_nonzero (d : Decimal.uint) : bool :=
  match d with
  | Decimal.Nil | Decimal.D0 _ => false
  | _ => true
  end.

(** A numeral followed by [z] zeros. *)
Fixpoint append_zeros (d : Decimal.uint) (z : nat) : Decimal.uint :=
  match d with
  | Decimal.Nil => Nat.iter z Decimal.D0 Decimal.Nil
  | Decimal.D0 r => Decimal.D0 (append_zeros r z)
  | Decimal.D1 r => Decimal.D1 (append_zeros r z)
  | Decimal.D2 r => Decimal.D2 (append_zeros r z)
  | Decimal.D3 r => Decimal.D3 (append_zeros r z)
  | Decimal.D4 r => Decimal.D4 (append_zeros r z)
  | Decimal.D5 r => Decimal.D5 (append_zeros r z)
  | Decimal.D6 r => Decimal.D6 (append_zeros r z)
  | Decimal.D7 r => Decimal.D7 (append_zeros r z)
  | Decimal.D8 r => Decimal.D8 (append_zeros r z)
  | Decimal.D9 r => Decimal.D9 (append_zeros r z)
  end.

Definition hex_value (c : ascii) : option Z :=
  match digit_value c with
  | Some v => if v <? 16 then Some v else None
  | None => None
  end.

(** The first character that a JSON string body stands for, and what
    follows it: a character written as it is, or one written with a
    backslash.  The closing quote stands for nothing. *)
Definition read_escaped (s : string) : option (ascii * string) :=
  match s with
  | EmptyString => None
  | String c r =>
      if Ascii.eqb c "034" then None
      else if Ascii.eqb c "092" then
        match r with
        | String "b" r' => Some ("008"%char, r')
        | String "t" r' => Some ("009"%char, r')
        | String "n" r' => Some ("010"%char, r')
        | String "f" r' => Some ("012"%char, r')
        | String "r" r' => Some ("013"%char, r')
        | String "u" (String "0" (String "0" (String h (String l r')))) =>
            match hex_value h, hex_value l with
            | Some x, Some y => Some (ascii_of_nat (Z.to_nat (16 * x + y)), r')
            | _, _ => None
            end
        | String e r' =>
            if orb (Ascii.eqb e "034") (Ascii.eqb e "092") then Some (e, r')
            else None
        | EmptyString => None
        end
      else Some (c, r)
  end.

End Reading.

(** ** Sessions

    Several submissions one after the other, each with the entries of the
    form at that moment and the answer of the network to its request. *)

Module Session.

Import JS Browser App Runs.

Definition submit (p : Page) (s : FormData * Network) : Page :=
  snd (onSubmit (fst s) (snd s) p).

Definition submit_all (l : list (FormData * Network)) (p : Page) : Page :=
  fold_left submit l p.

Definition is_disable (e : Effect) : bool :=
  match e with
  | SetDisabled true => true
  | _ => false
  end.

(** The five pages a submission can leave: a price, an error message, or
    the message of the [catch] block after a throw that came before any
    rendering, after the error class was set, or after the success class
    was set. *)
Inductive ending (fd : FormData) (p : Page) : Page -> Prop :=
| ends_priced f : ending fd p (loading_off (shown_price f (sent fd p)))
| ends_declined t : ending fd p (loading_off (shown_error t (sent fd p)))
| ends_caught e : ending fd p (loading_off (caught e (sent fd p)))
| ends_caught_error e :
    ending fd p
      (loading_off (caught e (write ResultClassName "result error" (sent fd p))))
| ends_caught_success e :
    ending fd p
      (loading_off (caught e (write ResultClassName "result success" (sent fd p)))).

(** The page after a list of effects has happened to it. *)
Definition apply_effect (p : Page) (e : Effect) : Page :=
  match e with
  | Assign slot value => write slot value p
  | SetDisabled value => write_disabled value p
  | _ => record e p
  end.

Definition replay (l : list Effect) (p : Page) : Page :=
  fold_left apply_effect l p.

(** A statement that reads nothing from the page: its completion and its
    effects are the same on every page. *)
Definition blind {A} (c : Script A) : Prop :=
  exists r l, forall p, c p = (r, replay l p).

End Session.

(** ** The focus and blur listeners

    The script gives every element matched by [input, select] when it runs
    a focus listener and a blur listener, which set the [style.transform]
    of the parent of the element.  A document is the list of the matched
    elements, in document order, and the parent of each element; elements
    are named by numbers. *)

Module Focus.

Definition Node : Type := nat.

Record Document : Type := {
  matched : list Node;
  parentElement : Node -> Node
}.

(** The [style.transform] of every element. *)
Definition Styles : Type := Node -> string.

Inductive Kind : Type :=
| focus
| blur.

Definition Kind_eqb (a b : Kind) : bool :=
  match a, b with
  | focus, focus | blur, blur => true
  | _, _ => false
  end.

Definition set_transform (element : Node) (value : string) (styles : Styles)
  : Styles :=
  fun x => if Nat.eqb x element then value else styles x.

(** The two listener functions, with [this] as first argument. *)
Definition on_focus (doc : Document) (this : Node) : Styles -> Styles :=
  set_transform (parentElement doc this) "translateY(-2px)".

Definition on_blur (doc : Document) (this : Node) : Styles -> Styles :=
  set_transform (parentElement doc this) "translateY(0)".

(** [querySelectorAll('input, select').forEach(...)]: the listeners that
    are registered, in order. *)
Definition listeners (doc : Document)
  : list (Node * Kind * (Node -> Styles -> Styles)) :=
  flat_map (fun input => [ (input, focus, on_focus doc);
                           (input, blur, on_blur doc) ])
           (matched doc).

(** An event of one kind on a target runs the listeners registered on that
    target for that kind; focus and blur do not bubble. *)
Definition dispatch (doc : Document) (ev : Node * Kind) (styles : Styles)
  : Styles :=
  fold_left
    (fun s l =>
       match l with
       | (element, kind, listener) =>
           if Nat.eqb element (fst ev) && Kind_eqb kind (snd ev)
           then listener (fst ev) s
           else s
       end)
    (listeners doc) styles.

Definition run (doc : Document) (events : list (Node * Kind)) (styles : Styles)
  : Styles :=
  fold_left (fun s ev => dispatch doc ev s) events styles.

Definition is_matched (doc : Document) (x : Node) : bool :=
  existsb (Nat.eqb x) (matched doc).

(** The value each kind of event leaves. *)
Definition value_of (kind : Kind) : string :=
  match kind with
  | focus => "translateY(-2px)"
  | blur => "translateY(0)"
  end.

End Focus.

(** ** The load listener

    The DOMContentLoaded listener starts the status check and gives the
    twelve form controls their sample values.  The controls of the page are
    listed in document order with their values; a control is found by its
    id, which the page also uses as its name in the form, so the same list
    is the entry list of the form.  A select is taken to offer the value
    assigned to it. *)

Module Loading.

Import JS Browser App Runs.

Definition Controls : Type := FormData.

(** [document.getElementById(id).value = value] on the first control with
    that id; [None] when there is none. *)
Fixpoint assign_value (id value : string) (controls : Controls) : option Controls :=
  match controls with
  | [] => None
  | (n, v) :: rest =>
      if String.eqb n id then Some ((n, value) :: rest)
      else
        match assign_value id value rest with
        | Some rest' => Some ((n, v) :: rest')
        | None => None
        end
  end.

(** Statements on the controls: what was assigned before a throw stays
    assigned. *)
Definition Setup (A : Type) : Type := Controls -> Completion A * Controls.

Definition then_ {A B} (c : Setup A) (k : Setup B) : Setup B :=
  fun controls =>
    match c controls with
    | (Normal _, controls') => k controls'
    | (Throw e, controls') => (Throw e, controls')
    end.

(** Without the element [getElementById] gives [null], and assigning a
    property of [null] throws a TypeError. *)
Definition set_value (id value : string) : Setup unit :=
  fun controls =>
    match assign_value id value controls with
    | Some controls' => (Normal tt, controls')
    | None =>
        (Throw (TypeError ("Cannot set properties of null, setting value of " ++ id)),
         controls)
    end.

(** The twelve assignments of the listener, in order. *)
Definition set_sample_values : Setup unit :=
  then_ (set_value "area" "7420")
 (then_ (set_value "bedrooms" "4")
 (then_ (set_value "bathrooms" "2")
 (then_ (set_value "stories" "3")
 (then_ (set_value "mainroad" "yes")
 (then_ (set_value "guestroom" "no")
 (then_ (set_value "basement" "no")
 (then_ (set_value "hotwaterheating" "no")
 (then_ (set_value "airconditioning" "yes")
 (then_ (set_value "parking" "2")
 (then_ (set_value "prefarea" "yes")
        (set_value "furnishingstatus" "furnished"))))))))))).

(** The listener: the status check is started, then the values are set.
    The check is not awaited and handles its own failures, so it shares
    nothing with the assignments but the order in which they start. *)
Definition onLoad (net : Network) (controls : Controls) (p : Page)
  : Completion unit * Controls * Page :=
  let p' := snd (checkApiStatus net p) in
  let '(c, controls') := set_sample_values controls in
  (c, controls', p').

(** The assignments as a list, for the statements about them. *)
Fixpoint set_all (l : list (string * string)) : Setup unit :=
  match l with
  | [] => fun controls => (Normal tt, controls)
  | (id, value) :: rest => then_ (set_value id value) (set_all rest)
  end.

(** The array of the comment in the listener. *)
Definition example_input : list JSValue :=
  [ VNum (Fin 7420); VNum (Fin 4); VNum (Fin 2); VNum (Fin 3);
    VStr "yes"; VStr "no"; VStr "no"; VStr "no"; VStr "yes";
    VNum (Fin 2); VStr "yes"; VStr "furnished" ].

End Loading.

(** * Properties of the client *)

Import JS Browser App Runs.
Local Open Scope script_scope.

(** ** The run-time model on known values *)

Example parseInt_values :
  map parseInt_string
    [ "7420"; "  42px"; "-12"; "12.7"; "0x1F"; "9007199254740993";
      "-0"; "abc"; "null" ]
  = [ Fin 7420; Fin 42; Fin (-12); Fin 12; Fin 31; Fin 9007199254740992;
      NegZero; NaN; NaN ]
  /\ parseInt_string EmptyString = NaN.
Proof. split; vm_compute; reflexivity. Qed.

Example Number_toString_values :
  map Number_toString
    [ Fin 7420; Fin (1 # 2); roundToDouble (1 # 10); roundToDouble (1 # 3);
      roundToDouble (inject_Z (2 ^ 70)); roundToDouble (inject_Z (10 ^ 21));
      roundToDouble (inject_Z 123456789012345678901);
      roundToDouble (15 # 100000000); NegZero; NaN; Infinity true ]
  = [ "7420"; "0.5"; "0.1"; "0.3333333333333333";
      "1.1805916207174113e+21"; "1e+21";
      "123456789012345680000";
      "1.5e-7"; "0"; "NaN"; "-Infinity" ].
Proof. vm_compute. reflexivity. Qed.

Example ToString_values :
  ToString (VArr [VNum (Fin 1); VNull; VStr "a"; VArr [VBool true]])
  = Normal "1,,a,true"
  /\ ToString (VObj [("code", VNum (Fin 1))]) = Normal "[object Object]"
  /\ ToString (VObj [("toString", VNum (Fin 1))]) = Throw not_primitive.
Proof. repeat split. Qed.

Example JSON_stringify_value :
  JSON_stringify
    (VObj [("input", VArr [VNum (Fin 7420); VNum NaN; VStr "yes"; VNull])])
  = Some ("{" ++ quoted "input" ++ ":[7420,null," ++ quoted "yes" ++ ",null]}")%string.
Proof. vm_compute. reflexivity. Qed.

Example formatPrice_values :
  map formatPrice
    [ VNum (Fin 650000); VNum (Fin (2469135 # 2)); VNum (Fin (-5));
      VNum (Fin (2 # 5)); VStr "650000"; VStr "12.5e2"; VStr "abc";
      VBool true; VArr [VNum (Fin 7)]; VObj [] ]
  = map Normal
      [ "$650,000"; "$1,234,568"; "-$5";
        "$0"; "$650,000"; "$1,250"; "$NaN";
        "$1"; "$7"; "$NaN" ].
Proof. vm_compute. reflexivity. Qed.

(** Past [2^53] the digits shown are the shortest that identify the
    double, and a literal too large for a double is an infinity. *)
Example formatPrice_large_values :
  formatPrice (VNum (Fin (inject_Z (2 ^ 54 + 8)))) = Normal "$18,014,398,509,481,990"
  /\ formatPrice (VStr "18014398509481992") = Normal "$18,014,398,509,481,990"
  /\ formatPrice (VStr "1e400") = Normal "$∞"
  /\ formatPrice (VStr "-1e400") = Normal "-$∞"
  /\ formatPrice (VStr "-1e-400") = Normal "-$0".
Proof. vm_compute. repeat split. Qed.

(** A submission of the sample form answered with a price, effect by
    effect. *)
Example priced_submission :
  added blank
    (snd (onSubmit sample_form
            (Resolves {| status := 200;
                         json := Normal (VObj [("estimated_price",
                                                VNum (Fin 650000))]) |})
            blank))
  = [ PreventDefault;
      SetDisabled true;
      Assign BtnTextOpacity "0";
      Assign LoadingDisplay "block";
      Fetch (prediction_request (features sample_form));
      Assign ResultClassName "result success";
      Assign ResultInnerHTML (price_markup "$650,000");
      Assign ResultDisplay "block";
      SetTimeout HideResult 10000;
      SetDisabled false;
      Assign BtnTextOpacity "1";
      Assign LoadingDisplay "none" ].
Proof. vm_compute. reflexivity. Qed.

(** ** Form entries and the feature array *)

Lemma FormData_get_cases (formData : FormData) (name : string) :
  FormData_get formData name = VNull
  \/ exists s, FormData_get formData name = VStr s.
Proof.
  induction formData as [| [n v] rest IH]; simpl.
  - now left.
  - destruct (String.eqb n name); [right; now exists v | exact IH].
Qed.

Lemma parseInt_field (formData : FormData) (name : string) :
  parseInt (FormData_get formData name) = Normal (field_number formData name).
Proof.
  unfold field_number, field_text.
  destruct (FormData_get_cases formData name) as [E | [s E]]; rewrite E; reflexivity.
Qed.

Lemma inputFeatures_run (formData : FormData) (p : Page) :
  inputFeatures formData p = (Normal (features formData), p).
Proof.
  unfold inputFeatures, bind, lift, ret.
  rewrite !parseInt_field. reflexivity.
Qed.

Lemma present_raw (formData : FormData) (name : string) :
  present formData name = true ->
  FormData_get formData name = VStr (raw formData name)
  /\ field_text formData name = raw formData name.
Proof.
  unfold present, raw, field_text.
  destruct (FormData_get formData name); intros H; try discriminate H. now split.
Qed.

Lemma append_assoc (a b c : string) : ((a ++ b) ++ c)%string = (a ++ b ++ c)%string.
Proof. induction a as [| x a IH]; simpl; [reflexivity | now rewrite IH]. Qed.

Lemma body_of_features (l : list JSValue) :
  body (prediction_request l) = Some (body_of (map entry_text l)).
Proof.
  change (body (prediction_request l))
    with (Some ("{" ++ (QuoteJSONString "input" ++ ":"
                          ++ "[" ++ Text.join "," (map entry_text l) ++ "]")
                    ++ "}")%string).
  unfold body_of. rewrite !append_assoc. reflexivity.
Qed.

(** ** Journals and pages *)

Lemma journal_record e p : journal (record e p) = (journal p ++ [e])%list.
Proof. reflexivity. Qed.

Lemma journal_write s v p : journal (write s v p) = (journal p ++ [Assign s v])%list.
Proof. reflexivity. Qed.

Lemma journal_write_disabled b p :
  journal (write_disabled b p) = (journal p ++ [SetDisabled b])%list.
Proof. reflexivity. Qed.

Lemma added_app p q l : journal q = (journal p ++ l)%list -> added p q = l.
Proof.
  intros E. unfold added. rewrite E, skipn_app, skipn_all, Nat.sub_diag. reflexivity.
Qed.

Create Rewrite HintDb journal.
#[local] Hint Rewrite journal_record journal_write journal_write_disabled : journal.

(** Brings the journal of a page built from the named pages to the form
    [journal p ++ effects]. *)
Ltac journal :=
  repeat (progress (unfold loading_off, loading_on, caught, shown_error,
                      shown_price, sent, offline, online));
  autorewrite with journal;
  rewrite <- ?app_assoc; cbn [app].

Lemma rendering_no_enable l : forallb rendering l = true -> no_enable l = true.
Proof.
  unfold no_enable. induction l as [| e l IH]; simpl; [reflexivity |].
  intros H. apply andb_true_iff in H as [He Hl].
  rewrite (IH Hl), andb_true_r. now destruct e.
Qed.

Lemma rendering_no_request l : forallb rendering l = true -> requests l = [].
Proof.
  induction l as [| e l IH]; simpl; [reflexivity |].
  intros H. apply andb_true_iff in H as [He Hl].
  rewrite (IH Hl). now destruct e.
Qed.

Lemma no_enable_filter l : no_enable l = true -> filter is_enable l = [].
Proof.
  unfold no_enable. induction l as [| e l IH]; simpl; [reflexivity |].
  intros H. apply andb_true_iff in H as [He Hl].
  destruct (is_enable e); [discriminate He | exact (IH Hl)].
Qed.

(** ** Statements that only render *)

Section Steady.

Context {A B : Type}.

Lemma steady_ret (a : A) : steady (ret a).
Proof. intros p. exists []. now rewrite app_nil_r. Qed.

Lemma steady_throw (e : Exception) : steady (@throw A e).
Proof. intros p. exists []. now rewrite app_nil_r. Qed.

Lemma steady_lift (c : Completion A) : steady (lift c).
Proof. intros p. exists []. now rewrite app_nil_r. Qed.

Lemma steady_bind (c : Script A) (k : A -> Script B) :
  steady c -> (forall a, steady (k a)) -> steady (bind c k).
Proof.
  intros Hc Hk p. unfold bind.
  destruct (Hc p) as (l & E & R & D).
  destruct (c p) as [[a | e] q]; simpl in *.
  - destruct (Hk a q) as (l' & E' & R' & D').
    exists (l ++ l')%list. rewrite E', E, app_assoc, forallb_app, R, R', D', D.
    now repeat split.
  - exists l. now repeat split.
Qed.

Lemma steady_if (b : bool) (c d : Script A) :
  steady c -> steady d -> steady (if b then c else d).
Proof. now destruct b. Qed.

End Steady.

Lemma steady_assign slot value : steady (assign slot value).
Proof. intros p. now exists [Assign slot value]. Qed.

Lemma steady_effect e : rendering e = true -> steady (effect e).
Proof. intros H p. exists [e]. simpl. now rewrite H. Qed.

Lemma steady_showResult message isError price :
  steady (showResult message isError price).
Proof.
  unfold showResult.
  repeat first
    [ apply steady_bind | apply steady_if | apply steady_assign
    | apply steady_lift | apply steady_ret
    | apply steady_effect; reflexivity | intros ? ].
Qed.

Lemma steady_respond response : steady (respond response).
Proof.
  unfold respond.
  apply steady_bind; [apply steady_lift | intros data].
  apply steady_bind.
  - apply steady_if; [| apply steady_ret].
    apply steady_bind; [apply steady_lift | intros price; apply steady_ret].
  - intros [|]; (apply steady_bind; [apply steady_lift | intros v]);
      apply steady_showResult.
Qed.

(** ** Runs of the functions *)

Lemma setLoading_on (p : Page) : setLoading true p = (Normal tt, loading_on p).
Proof. reflexivity. Qed.

Lemma setLoading_off (p : Page) : setLoading false p = (Normal tt, loading_off p).
Proof. reflexivity. Qed.

Lemma showResult_error message text p :
  ToString message = Normal text ->
  showResult message true VNull p = (Normal tt, shown_error text p).
Proof. intros E. unfold showResult, bind, lift. cbn. now rewrite E. Qed.

Lemma showResult_error_throws message e p :
  ToString message = Throw e ->
  showResult message true VNull p
  = (Throw e, write ResultClassName "result error" p).
Proof. intros E. unfold showResult, bind, lift. cbn. now rewrite E. Qed.

Lemma showResult_price message price formatted p :
  ToBoolean price = true -> formatPrice price = Normal formatted ->
  showResult message false price p = (Normal tt, shown_price formatted p).
Proof. intros E1 E2. unfold showResult, bind, lift. cbn. now rewrite E1, E2. Qed.

Lemma showResult_price_throws message price e p :
  ToBoolean price = true -> formatPrice price = Throw e ->
  showResult message false price p
  = (Throw e, write ResultClassName "result success" p).
Proof. intros E1 E2. unfold showResult, bind, lift. cbn. now rewrite E1, E2. Qed.

Lemma handler_run e p : handler e p = (Normal tt, caught e p).
Proof. reflexivity. Qed.

(** The submit listener around the statements that follow the [fetch]. *)
Lemma guarded_run (tail : Response -> Script unit) fd r p :
  (effect PreventDefault ;;
   setLoading true ;;
   try_finally
     (try_catch
        (features <- inputFeatures fd ;;
         response <- fetch (prediction_request features) (Resolves r) ;;
         tail response)
        handler)
     (setLoading false)) p
  = match tail r (sent fd p) with
    | (Normal _, q) => (Normal tt, loading_off q)
    | (Throw e, q) => (Normal tt, loading_off (caught e q))
    end.
Proof.
  unfold try_finally, try_catch, bind. cbn.
  rewrite !parseInt_field. unfold ret at 1.
  change (record (Fetch (prediction_request _)) _) with (sent fd p).
  destruct (tail r (sent fd p)) as [[[] | e] q]; reflexivity.
Qed.

Lemma onSubmit_resolves fd r p :
  onSubmit fd (Resolves r) p
  = match respond r (sent fd p) with
    | (Normal _, q) => (Normal tt, loading_off q)
    | (Throw e, q) => (Normal tt, loading_off (caught e q))
    end.
Proof. exact (guarded_run respond fd r p). Qed.

Lemma onSubmit_rejects fd e p :
  onSubmit fd (Rejects e) p = (Normal tt, loading_off (caught e (sent fd p))).
Proof.
  unfold onSubmit, try_finally, try_catch, bind. cbn.
  rewrite !parseInt_field. reflexivity.
Qed.

Lemma respond_unreadable r e p : json r = Throw e -> respond r p = (Throw e, p).
Proof. intros E. unfold respond, bind, lift. now rewrite E. Qed.

Lemma respond_accepted r data price p :
  json r = Normal data -> ok r = true ->
  Get data "estimated_price" = Normal price -> ToBoolean price = true ->
  respond r p = showResult (VStr EmptyString) false price p.
Proof.
  intros E1 E2 E3 E4. unfold respond, bind, lift, ret. now rewrite E1, E2, E3, E4.
Qed.

Lemma respond_declined r data price error p :
  json r = Normal data -> ok r = true ->
  Get data "estimated_price" = Normal price -> ToBoolean price = false ->
  Get data "error" = Normal error ->
  respond r p
  = showResult (if ToBoolean error then error else VStr "Prediction failed")
      true VNull p.
Proof.
  intros E1 E2 E3 E4 E5. unfold respond, bind, lift, ret.
  now rewrite E1, E2, E3, E4, E5.
Qed.

Lemma respond_failed r data error p :
  json r = Normal data -> ok r = false ->
  Get data "error" = Normal error ->
  respond r p
  = showResult (if ToBoolean error then error else VStr "Prediction failed")
      true VNull p.
Proof.
  intros E1 E2 E5. unfold respond, bind, lift, ret. now rewrite E1, E2, E5.
Qed.

(** A value whose property can be read lets every property be read. *)
Lemma Get_readable data key x key' :
  Get data key = Normal x -> exists y, Get data key' = Normal y.
Proof.
  destruct data; simpl; intros H; try discriminate H; eauto.
  destruct (own_property members key'); eauto.
Qed.

(** Every submission completes, whatever the network does; the journal of
    the run opens with [opening], closes with [closing], and in between
    has the request and rendering effects only. *)
Lemma onSubmit_shape fd net p :
  exists q l,
    onSubmit fd net p = (Normal tt, loading_off q)
    /\ journal q
       = (journal p ++ opening ++ Fetch (prediction_request (features fd)) :: l)%list
    /\ forallb rendering l = true.
Proof.
  destruct net as [e | r].
  - rewrite onSubmit_rejects. eexists _, _. split; [reflexivity |].
    split; [journal; reflexivity | reflexivity].
  - rewrite onSubmit_resolves.
    destruct (steady_respond r (sent fd p)) as (l & E & R & _).
    destruct (respond r (sent fd p)) as [[[] | e] q]; simpl in E.
    + exists q, l. split; [reflexivity |]. split; [| exact R].
      rewrite E. journal. reflexivity.
    + exists (caught e q), (l ++ [ConsoleError "Error:" e;
                                  Assign ResultClassName "result error";
                                  Assign ResultInnerHTML (message_markup true network_error);
                                  Assign ResultDisplay "block"])%list.
      split; [reflexivity |]. split.
      * journal. rewrite E. journal. reflexivity.
      * rewrite forallb_app, R. reflexivity.
Qed.

(** ** The submit listener and the status check *)

(** C3.  Every submission, whether it ends in a rendered price, a reported
    error or a caught exception, leaves the loading indicator hidden and the
    submit control enabled.  The effects of the run are the opening ones
    (the control disabled, the indicator shown), the request, then rendering
    effects, which never touch the control, then the closing ones: the
    control is re-enabled exactly once, at the end. *)
Theorem C3_loading_cleared_once (formData : FormData) (net : Network) (p : Page) :
  let p' := snd (onSubmit formData net p) in
  predictBtn_disabled p' = false
  /\ loading_display p' = "none"
  /\ btnText_opacity p' = "1"
  /\ (exists rest,
        added p p'
        = (opening ++ Fetch (prediction_request (features formData)) :: rest
             ++ closing)%list
        /\ forallb rendering rest = true)
  /\ filter is_enable (added p p') = [SetDisabled false].
Proof.
  destruct (onSubmit_shape formData net p) as (q & l & E & J & R).
  rewrite E. cbn [snd].
  assert (A : added p (loading_off q)
              = (opening ++ Fetch (prediction_request (features formData)) :: l
                   ++ closing)%list).
  { apply added_app. journal. rewrite J. rewrite <- !app_assoc. reflexivity. }
  repeat split; try reflexivity.
  - exists l. split; [exact A | exact R].
  - rewrite A. simpl. rewrite filter_app.
    rewrite (no_enable_filter l (rendering_no_enable l R)). reflexivity.
Qed.

(** C7.  When [fetch] rejects or the body of the response does not parse,
    the exception is caught: the listener completes normally, the result
    area shows the fixed network-error message as an error, the exception
    is logged, and no timer is started.  No answer of the network makes the
    listener throw. *)
Theorem C7_transport_failure_caught
  (formData : FormData) (net : Network) (e : Exception) (p : Page) :
  fails_with net e ->
  let p' := snd (onSubmit formData net p) in
  fst (onSubmit formData net p) = Normal tt
  /\ p' = loading_off (caught e (sent formData p))
  /\ result_className p' = "result error"
  /\ result_innerHTML p'
     = "<div>❌ Network error - please check if the API server is running</div>"
  /\ result_display p' = "block"
  /\ In (ConsoleError "Error:" e) (added p p')
  /\ no_timeout (added p p') = true
  /\ (forall net', fst (onSubmit formData net' p) = Normal tt).
Proof.
  intros F.
  assert (E : onSubmit formData net p
              = (Normal tt, loading_off (caught e (sent formData p)))).
  { destruct net as [e' | r]; simpl in F.
    - subst e'. apply onSubmit_rejects.
    - rewrite onSubmit_resolves, (respond_unreadable r e _ F). reflexivity. }
  rewrite E. cbn [fst snd].
  assert (A : added p (loading_off (caught e (sent formData p)))
              = (opening ++ [Fetch (prediction_request (features formData));
                             ConsoleError "Error:" e;
                             Assign ResultClassName "result error";
                             Assign ResultInnerHTML (message_markup true network_error);
                             Assign ResultDisplay "block"] ++ closing)%list).
  { apply added_app. journal. reflexivity. }
  repeat split; try reflexivity.
  - rewrite A. simpl. tauto.
  - rewrite A. reflexivity.
  - intros net'. destruct (onSubmit_shape formData net' p) as (q & l & E' & _).
    now rewrite E'.
Qed.

Lemma C7_transport_failure_caught_witness :
  fails_with (Rejects (TypeError "Failed to fetch")) (TypeError "Failed to fetch")
  /\ fst (onSubmit sample_form (Rejects (TypeError "Failed to fetch")) blank)
     = Normal tt
  /\ result_innerHTML
       (snd (onSubmit sample_form (Rejects (TypeError "Failed to fetch")) blank))
     = "<div>❌ Network error - please check if the API server is running</div>".
Proof.
  split; [reflexivity |].
  pose proof (C7_transport_failure_caught sample_form
                (Rejects (TypeError "Failed to fetch"))
                (TypeError "Failed to fetch") blank eq_refl) as H.
  cbv zeta in H. split; [apply H | apply H].
Defined.

(** C5.  The status check has two outcomes.  A rejected request and a
    response with a status outside 200..299 leave the same page, [offline p]:
    the indicator in its offline state, displayed, and no timer.  A response
    with a success status leaves the indicator in its connected state,
    displayed, with one timer of 3000 ms whose callback hides it. *)
Theorem C5_status_check (net : Network) (p : Page) :
  let p' := snd (checkApiStatus net p) in
  fst (checkApiStatus net p) = Normal tt
  /\ if answered net then
       p' = online p
       /\ apiStatus_className p' = "api-status online"
       /\ apiStatus_textContent p' = "✅ API Connected"
       /\ apiStatus_display p' = "block"
       /\ filter is_timeout (added p p') = [SetTimeout HideApiStatus 3000]
       /\ apiStatus_display (snd (run_callback HideApiStatus p')) = "none"
     else
       p' = offline p
       /\ apiStatus_className p' = "api-status offline"
       /\ apiStatus_textContent p' = "❌ API Offline - Please start the Flask server"
       /\ apiStatus_display p' = "block"
       /\ filter is_timeout (added p p') = [].
Proof.
  assert (E : checkApiStatus net p
              = (Normal tt, if answered net then online p else offline p)).
  { destruct net as [e | r]; [reflexivity |].
    unfold checkApiStatus, try_catch, bind. simpl. now destruct (ok r). }
  rewrite E. cbn [fst snd]. split; [reflexivity |].
  destruct (answered net).
  - repeat split.
    replace (added p (online p))
      with [Fetch status_request; Assign ApiStatusClassName "api-status online";
            Assign ApiStatusTextContent "✅ API Connected";
            Assign ApiStatusDisplay "block"; SetTimeout HideApiStatus 3000];
      [reflexivity | symmetry; apply added_app; journal; reflexivity].
  - repeat split.
    replace (added p (offline p))
      with [Fetch status_request; Assign ApiStatusClassName "api-status offline";
            Assign ApiStatusTextContent
              "❌ API Offline - Please start the Flask server";
            Assign ApiStatusDisplay "block"];
      [reflexivity | symmetry; apply added_app; journal; reflexivity].
Qed.

(** The one request of a submission, and where it stands in the run. *)
Lemma onSubmit_requests fd net p :
  requests (added p (snd (onSubmit fd net p))) = [prediction_request (features fd)].
Proof.
  destruct (onSubmit_shape fd net p) as (q & l & E & J & R).
  rewrite E. cbn [snd].
  replace (added p (loading_off q))
    with (opening ++ (Fetch (prediction_request (features fd)) :: l) ++ closing)%list.
  - unfold requests. rewrite !flat_map_app. simpl.
    fold (requests l). now rewrite (rendering_no_request l R).
  - symmetry. apply added_app. journal. rewrite J, <- !app_assoc. reflexivity.
Qed.

Lemma onSubmit_dispatch_first fd net p :
  exists rest,
    added p (snd (onSubmit fd net p))
    = (opening ++ Fetch (prediction_request (features fd)) :: rest)%list.
Proof.
  destruct (onSubmit_shape fd net p) as (q & l & E & J & R).
  rewrite E. cbn [snd]. exists (l ++ closing)%list.
  apply added_app. journal. rewrite J, <- !app_assoc. reflexivity.
Qed.

(** C1.  When the form has all twelve fields, the array built by the
    listener has twelve elements in the order area, bedrooms, bathrooms,
    stories, mainroad, guestroom, basement, hotwaterheating,
    airconditioning, parking, prefarea, furnishingstatus: positions 0 to 3
    and 9 hold the [parseInt] of the field, the others the field's string.
    The listener sends one request, a POST whose body is the JSON text of
    [{input: array}], the elements in that order. *)
Theorem C1_request_array (formData : FormData) (net : Network) (p : Page) :
  all_present formData = true ->
  let array :=
    [ VNum (parseInt_string (raw formData "area"));
      VNum (parseInt_string (raw formData "bedrooms"));
      VNum (parseInt_string (raw formData "bathrooms"));
      VNum (parseInt_string (raw formData "stories"));
      VStr (raw formData "mainroad");
      VStr (raw formData "guestroom");
      VStr (raw formData "basement");
      VStr (raw formData "hotwaterheating");
      VStr (raw formData "airconditioning");
      VNum (parseInt_string (raw formData "parking"));
      VStr (raw formData "prefarea");
      VStr (raw formData "furnishingstatus") ] in
  inputFeatures formData p = (Normal array, p)
  /\ List.length array = 12%nat
  /\ requests (added p (snd (onSubmit formData net p))) = [prediction_request array]
  /\ method (prediction_request array) = "POST"
  /\ body (prediction_request array) = Some (body_of (map entry_text array)).
Proof.
  intros H array.
  assert (F : features formData = array).
  { unfold all_present, field_names in H. simpl in H.
    repeat (apply andb_true_iff in H; destruct H as [?H H]).
    unfold features, field_number, array.
    repeat match goal with
           | P : present formData ?n = true |- _ =>
               let E1 := fresh "E" in
               let E2 := fresh "E" in
               destruct (present_raw formData n P) as [E1 E2];
               rewrite ?E2, ?E1; clear P E1 E2
           end.
    reflexivity. }
  rewrite <- F. repeat split.
  - apply inputFeatures_run.
  - apply onSubmit_requests.
  - apply body_of_features.
Qed.

Lemma C1_request_array_witness :
  all_present sample_form = true
  /\ requests (added blank
                 (snd (onSubmit sample_form (Rejects (TypeError "Failed to fetch"))
                         blank)))
     = [ {| url := "/api/get_predicted_price";
            method := "POST";
            headers := [("Content-Type", "application/json")];
            body :=
              Some ("{" ++ quoted "input" ++ ":[7420,4,2,3,"
                      ++ quoted "yes" ++ "," ++ quoted "no" ++ ","
                      ++ quoted "no" ++ "," ++ quoted "no" ++ ","
                      ++ quoted "yes" ++ ",2," ++ quoted "yes" ++ ","
                      ++ quoted "furnished" ++ "]}")%string |} ].
Proof.
  split; [reflexivity |].
  pose proof (C1_request_array sample_form (Rejects (TypeError "Failed to fetch"))
                blank eq_refl) as H.
  cbv zeta in H. destruct H as (_ & _ & H & _).
  rewrite H. vm_compute. reflexivity.
Defined.

(** C10.  When the area field does not parse, the array holds NaN at
    position 0 but its JSON text holds [null] there: the body of the
    request that is sent starts with [{"input":[null,]. *)
Theorem C10_nan_sent_as_null (formData : FormData) (net : Network) (p : Page) :
  parseInt (FormData_get formData "area") = Normal NaN ->
  inputFeatures formData p = (Normal (features formData), p)
  /\ nth_error (features formData) 0 = Some (VNum NaN)
  /\ requests (added p (snd (onSubmit formData net p)))
     = [prediction_request (features formData)]
  /\ body (prediction_request (features formData))
     = Some (body_of (map entry_text (features formData)))
  /\ nth_error (map entry_text (features formData)) 0 = Some "null"
  /\ exists rest,
       body (prediction_request (features formData))
       = Some ("{" ++ quoted "input" ++ ":[null," ++ rest)%string.
Proof.
  intros H. rewrite parseInt_field in H. injection H as H.
  split; [apply inputFeatures_run |].
  split; [unfold features; now rewrite H |].
  split; [apply onSubmit_requests |].
  split; [apply body_of_features |].
  split; [unfold features; now rewrite H |].
  rewrite body_of_features. unfold features. rewrite H.
  eexists. unfold body_of. cbn [map]. reflexivity.
Qed.

Lemma C10_nan_sent_as_null_witness :
  parseInt (FormData_get worded_form "area") = Normal NaN
  /\ body (prediction_request (features worded_form))
     = Some ("{" ++ quoted "input" ++ ":[null,4,2,3,"
               ++ quoted "yes" ++ "," ++ quoted "no" ++ ","
               ++ quoted "no" ++ "," ++ quoted "no" ++ ","
               ++ quoted "yes" ++ ",2," ++ quoted "yes" ++ ","
               ++ quoted "furnished" ++ "]}")%string.
Proof.
  split; [reflexivity |].
  destruct (C10_nan_sent_as_null worded_form (Rejects (TypeError "Failed to fetch"))
              blank eq_refl) as (_ & _ & _ & H & _).
  rewrite H. vm_compute. reflexivity.
Defined.

(** What a rendered error looks like in a finished run, whether the
    message was the one asked for or the one of the [catch] block. *)
Lemma error_run fd r message p :
  respond r (sent fd p) = showResult message true VNull (sent fd p) ->
  let p' := snd (onSubmit fd (Resolves r) p) in
  fst (onSubmit fd (Resolves r) p) = Normal tt
  /\ result_className p' = "result error"
  /\ result_display p' = "block"
  /\ (exists text, result_innerHTML p' = message_markup true text)
  /\ no_timeout (added p p') = true
  /\ ~ In (Assign ResultClassName "result success") (added p p')
  /\ (forall text, ToString message = Normal text ->
        result_innerHTML p' = message_markup true text).
Proof.
  intros E. rewrite onSubmit_resolves, E.
  destruct (ToString message) as [text | e] eqn:T.
  - rewrite (showResult_error message text _ T). cbn [fst snd].
    replace (added p (loading_off (shown_error text (sent fd p))))
      with (opening ++ [Fetch (prediction_request (features fd));
                        Assign ResultClassName "result error";
                        Assign ResultInnerHTML (message_markup true text);
                        Assign ResultDisplay "block"] ++ closing)%list
      by (symmetry; apply added_app; journal; reflexivity).
    repeat split; try reflexivity.
    + now exists text.
    + simpl. intros H.
      repeat (destruct H as [H | H]; [discriminate H |]). exact H.
    + intros text' H. now injection H as <-.
  - rewrite (showResult_error_throws message e _ T). cbn [fst snd].
    replace (added p (loading_off (caught e (write ResultClassName "result error"
                                               (sent fd p)))))
      with (opening ++ [Fetch (prediction_request (features fd));
                        Assign ResultClassName "result error";
                        ConsoleError "Error:" e;
                        Assign ResultClassName "result error";
                        Assign ResultInnerHTML (message_markup true network_error);
                        Assign ResultDisplay "block"] ++ closing)%list
      by (symmetry; apply added_app; journal; reflexivity).
    repeat split; try reflexivity.
    + now exists network_error.
    + simpl. intros H.
      repeat (destruct H as [H | H]; [discriminate H |]). exact H.
    + intros text' H. discriminate H.
Qed.

(** C2.  A response with a success status whose [estimated_price] is falsy
    (0, absent, null, the empty string, ...) is rendered as an error, never
    as a price: the result area gets the error class and an error message,
    no success class is ever assigned and no hide timer is started.  The
    message is the [error] field of the body when that is a non-empty
    string, and [Prediction failed] when the field is absent or falsy. *)
Theorem C2_falsy_price_is_error
  (formData : FormData) (r : Response) (data price : JSValue) (p : Page) :
  ok r = true ->
  json r = Normal data ->
  Get data "estimated_price" = Normal price ->
  ToBoolean price = false ->
  let p' := snd (onSubmit formData (Resolves r) p) in
  fst (onSubmit formData (Resolves r) p) = Normal tt
  /\ result_className p' = "result error"
  /\ result_display p' = "block"
  /\ (exists text, result_innerHTML p' = message_markup true text)
  /\ no_timeout (added p p') = true
  /\ ~ In (Assign ResultClassName "result success") (added p p')
  /\ (forall s, Get data "error" = Normal (VStr s) -> s <> EmptyString ->
        result_innerHTML p' = "<div>❌ " ++ s ++ "</div>")%string
  /\ (forall error, Get data "error" = Normal error -> ToBoolean error = false ->
        result_innerHTML p' = "<div>❌ Prediction failed</div>").
Proof.
  intros Hok Hjson Hprice Hfalsy.
  destruct (Get_readable data "estimated_price" price "error" Hprice) as [error Herror].
  pose proof (error_run formData r _ p
                (respond_declined r data price error _ Hjson Hok Hprice Hfalsy Herror))
    as (H1 & H2 & H3 & H4 & H5 & H6 & H7).
  repeat split; try assumption.
  - intros s Hs Hne. rewrite Hs in Herror. injection Herror as <-.
    rewrite (H7 s); [reflexivity |]. destruct s; [contradiction |]. reflexivity.
  - intros error' He Hf. rewrite He in Herror. injection Herror as <-.
    rewrite (H7 "Prediction failed"); [reflexivity | now rewrite Hf].
Qed.

Lemma C2_falsy_price_is_error_witness :
  let r := {| status := 200;
              json := Normal (VObj [("estimated_price", VNum (Fin 0))]) |} in
  ok r = true
  /\ ToBoolean (VNum (Fin 0)) = false
  /\ result_className (snd (onSubmit sample_form (Resolves r) blank)) = "result error"
  /\ result_innerHTML (snd (onSubmit sample_form (Resolves r) blank))
     = "<div>❌ Prediction failed</div>".
Proof.
  intros r. split; [reflexivity |]. split; [reflexivity |].
  pose proof (C2_falsy_price_is_error sample_form r _ (VNum (Fin 0)) blank
                eq_refl eq_refl eq_refl eq_refl) as H.
  cbv zeta in H. split; [apply H |].
  destruct H as (_ & _ & _ & _ & _ & _ & _ & H).
  apply (H VUndefined); reflexivity.
Defined.

(** C4, as amended.  A response with a status outside 200..299 whose body
    can be read is rendered as an error, and no hide timer is started.
    When the [error] field of the body is a non-empty string, the markup
    assigned to [innerHTML] of the result area is [<div>❌ ], that string
    character for character (nothing is escaped), and [</div>].  When the
    [error] field is the empty string or another falsy value (absent, null,
    0, NaN, false), the markup holds [Prediction failed] instead. *)
Theorem C4_server_error_verbatim
  (formData : FormData) (r : Response) (data error : JSValue) (p : Page) :
  ok r = false ->
  json r = Normal data ->
  Get data "error" = Normal error ->
  let p' := snd (onSubmit formData (Resolves r) p) in
  fst (onSubmit formData (Resolves r) p) = Normal tt
  /\ result_className p' = "result error"
  /\ result_display p' = "block"
  /\ no_timeout (added p p') = true
  /\ (forall s, error = VStr s -> s <> EmptyString ->
        result_innerHTML p' = "<div>❌ " ++ s ++ "</div>")%string
  /\ (ToBoolean error = false ->
        result_innerHTML p' = "<div>❌ Prediction failed</div>").
Proof.
  intros Hok Hjson Herror.
  pose proof (error_run formData r _ p
                (respond_failed r data error _ Hjson Hok Herror))
    as (H1 & H2 & H3 & H4 & H5 & H6 & H7).
  repeat split; try assumption.
  - intros s -> Hne.
    rewrite (H7 s); [reflexivity |]. destruct s; [contradiction |]. reflexivity.
  - intros Hf.
    rewrite (H7 "Prediction failed"); [reflexivity | now rewrite Hf].
Qed.

Lemma C4_server_error_verbatim_witness :
  let r := {| status := 400;
              json := Normal (VObj [("error", VStr "bad input")]) |} in
  let r0 := {| status := 400;
               json := Normal (VObj [("error", VStr EmptyString)]) |} in
  ok r = false
  /\ "bad input" <> EmptyString
  /\ result_innerHTML (snd (onSubmit sample_form (Resolves r) blank))
     = "<div>❌ bad input</div>"
  /\ ok r0 = false
  /\ ToBoolean (VStr EmptyString) = false
  /\ result_innerHTML (snd (onSubmit sample_form (Resolves r0) blank))
     = "<div>❌ Prediction failed</div>".
Proof.
  intros r r0. split; [reflexivity |]. split; [discriminate |].
  assert (N : "bad input" <> EmptyString) by discriminate.
  pose proof (C4_server_error_verbatim sample_form r _ (VStr "bad input") blank
                eq_refl eq_refl eq_refl) as H.
  pose proof (C4_server_error_verbatim sample_form r0 _ (VStr EmptyString) blank
                eq_refl eq_refl eq_refl) as H0.
  cbv zeta in H, H0.
  destruct H as (_ & _ & _ & _ & H & _).
  destruct H0 as (_ & _ & _ & _ & _ & H0).
  split; [exact (H "bad input" eq_refl N) |].
  split; [reflexivity |]. split; [reflexivity |].
  exact (H0 eq_refl).
Defined.

(** C4 as stated fails on an empty [error] field: a 400 response whose
    body has the empty string as [error] field does contain an error field,
    and the message rendered is [Prediction failed], not the empty value of
    the field. *)
Lemma C4_counterexample :
  let r := {| status := 400; json := Normal (VObj [("error", VStr EmptyString)]) |} in
  let p' := snd (onSubmit sample_form (Resolves r) blank) in
  ok r = false
  /\ Get (VObj [("error", VStr EmptyString)]) "error" = Normal (VStr EmptyString)
  /\ result_innerHTML p' = "<div>❌ Prediction failed</div>"
  /\ result_innerHTML p' <> message_markup true EmptyString.
Proof.
  vm_compute. repeat split; discriminate.
Qed.

(** C6, as amended.  When one of the fields read with [parseInt] (area,
    bedrooms, bathrooms, stories, parking) does not parse, the array keeps
    NaN at the position of that field and the request is sent all the same:
    the [fetch] follows the opening effects directly, nothing checks the
    array first.  In the body that is sent the position reads [null]. *)
Theorem C6_nan_not_validated
  (formData : FormData) (net : Network) (p : Page) (position : nat) (name : string) :
  In (position, name) integer_fields ->
  parseInt (FormData_get formData name) = Normal NaN ->
  let p' := snd (onSubmit formData net p) in
  inputFeatures formData p = (Normal (features formData), p)
  /\ nth_error (features formData) position = Some (VNum NaN)
  /\ (exists rest,
        added p p'
        = (opening ++ Fetch (prediction_request (features formData)) :: rest)%list)
  /\ requests (added p p') = [prediction_request (features formData)]
  /\ body (prediction_request (features formData))
     = Some (body_of (map entry_text (features formData)))
  /\ nth_error (map entry_text (features formData)) position = Some "null".
Proof.
  intros Hin H. rewrite parseInt_field in H. injection H as H.
  split; [apply inputFeatures_run |].
  assert (K : nth_error (features formData) position = Some (VNum NaN)).
  { unfold integer_fields in Hin. simpl in Hin.
    repeat (destruct Hin as [Hin | Hin];
            [injection Hin as <- <-; unfold features; simpl; now rewrite H |]).
    contradiction. }
  split; [exact K |].
  split; [apply onSubmit_dispatch_first |].
  split; [apply onSubmit_requests |].
  split; [apply body_of_features |].
  rewrite nth_error_map, K. reflexivity.
Qed.

Lemma C6_nan_not_validated_witness :
  In (0%nat, "area") integer_fields
  /\ parseInt (FormData_get worded_form "area") = Normal NaN
  /\ nth_error (features worded_form) 0 = Some (VNum NaN)
  /\ nth_error (map entry_text (features worded_form)) 0 = Some "null".
Proof.
  assert (I : In (0%nat, "area") integer_fields) by (left; reflexivity).
  pose proof (C6_nan_not_validated worded_form (Rejects (TypeError "Failed to fetch"))
                blank 0%nat "area" I eq_refl) as H.
  cbv zeta in H. split; [exact I |]. split; [reflexivity |].
  split; apply H.
Defined.

(** C6 as stated fails: with [abc] in the area field the array holds NaN
    at position 0, but the body that is sent does not carry that value
    as it is: position 0 of the body reads [null]. *)
Lemma C6_counterexample :
  parseInt (FormData_get worded_form "area") = Normal NaN
  /\ nth_error (features worded_form) 0 = Some (VNum NaN)
  /\ body (prediction_request (features worded_form))
     = Some ("{" ++ quoted "input" ++ ":[null,4,2,3,"
               ++ quoted "yes" ++ "," ++ quoted "no" ++ ","
               ++ quoted "no" ++ "," ++ quoted "no" ++ ","
               ++ quoted "yes" ++ ",2," ++ quoted "yes" ++ ","
               ++ quoted "furnished" ++ "]}")%string
  /\ nth_error (map entry_text (features worded_form)) 0
     <> Some (Number_toString NaN).
Proof.
  vm_compute. repeat split; discriminate.
Qed.

(** C8.  A response with a success status and body
    [{"estimated_price": 650000}] is rendered as a price: the result area
    gets the success class and the price markup, in which the price reads
    [$650,000], with a comma between the groups and no decimals. *)
Theorem C8_price_650000 (formData : FormData) (r : Response) (p : Page) :
  ok r = true ->
  json r = Normal (VObj [("estimated_price", VNum (Fin 650000))]) ->
  let p' := snd (onSubmit formData (Resolves r) p) in
  formatPrice (VNum (Fin 650000)) = Normal "$650,000"
  /\ fst (onSubmit formData (Resolves r) p) = Normal tt
  /\ result_className p' = "result success"
  /\ result_innerHTML p' = price_markup "$650,000"
  /\ (exists before after,
        result_innerHTML p' = (before ++ "$650,000" ++ after)%string)
  /\ result_display p' = "block".
Proof.
  intros Hok Hjson.
  assert (F : formatPrice (VNum (Fin 650000)) = Normal "$650,000")
    by (vm_compute; reflexivity).
  rewrite onSubmit_resolves.
  rewrite (respond_accepted r _ (VNum (Fin 650000)) _ Hjson Hok eq_refl eq_refl).
  rewrite (showResult_price _ (VNum (Fin 650000)) _ _ eq_refl F). cbn [fst snd].
  repeat split; try reflexivity; try exact F.
  exists ("
            <div>🎉 Estimated Property Value</div>
            <div class=" ++ Text.dquote ++ "price-display" ++ Text.dquote ++ ">")%string,
    ("</div>
            <div style=" ++ Text.dquote
      ++ "margin-top: 10px; font-size: 0.9rem; opacity: 0.9;" ++ Text.dquote ++ ">
                *Estimate based on provided features
            </div>
        ")%string.
  vm_compute. reflexivity.
Qed.

Lemma C8_price_650000_witness :
  let r := {| status := 200;
              json := Normal (VObj [("estimated_price", VNum (Fin 650000))]) |} in
  ok r = true
  /\ result_innerHTML (snd (onSubmit sample_form (Resolves r) blank))
     = price_markup "$650,000".
Proof.
  intros r. split; [reflexivity |].
  pose proof (C8_price_650000 sample_form r blank eq_refl eq_refl) as H.
  cbv zeta in H. apply H.
Defined.

(** A value that converts to a primitive can be formatted. *)
Lemma formatPrice_converts price prim :
  ToPrimitive price = Normal prim -> exists formatted, formatPrice price = Normal formatted.
Proof.
  intros H.
  assert (P : match prim with VArr _ | VObj _ => False | _ => True end).
  { destruct price; unfold ToPrimitive in H;
      try (injection H as <-; exact I);
      match type of H with
      | andThen ?c _ = _ =>
          destruct c; simpl in H; [injection H as <-; exact I | discriminate H]
      end. }
  unfold formatPrice, ToIntlMathematicalValue. rewrite H.
  destruct prim as [| | [|] | | | |]; simpl; try contradiction; eauto.
Qed.

(** C9, as amended.  The success check asks for a truthy price, not for a
    positive number.  A response with a success status whose
    [estimated_price] is truthy and converts to a primitive (every truthy
    number, boolean and string does, and so does an array or an object
    unless an own [toString] property stands in the way) is rendered as a
    price: the success class, the markup around the formatted value, and
    the timer that hides it after 10000 ms. *)
Theorem C9_truthy_price_rendered
  (formData : FormData) (r : Response) (data price prim : JSValue) (p : Page) :
  ok r = true ->
  json r = Normal data ->
  Get data "estimated_price" = Normal price ->
  ToBoolean price = true ->
  ToPrimitive price = Normal prim ->
  let p' := snd (onSubmit formData (Resolves r) p) in
  exists formatted,
    formatPrice price = Normal formatted
    /\ fst (onSubmit formData (Resolves r) p) = Normal tt
    /\ p' = loading_off (shown_price formatted (sent formData p))
    /\ result_className p' = "result success"
    /\ result_innerHTML p' = price_markup formatted
    /\ result_display p' = "block"
    /\ filter is_timeout (added p p') = [SetTimeout HideResult 10000].
Proof.
  intros Hok Hjson Hprice Htruthy Hprim.
  destruct (formatPrice_converts price prim Hprim) as [formatted F].
  exists formatted.
  rewrite onSubmit_resolves.
  rewrite (respond_accepted r data price _ Hjson Hok Hprice Htruthy).
  rewrite (showResult_price _ _ _ _ Htruthy F). cbn [fst snd].
  repeat split; try reflexivity; try exact F.
  replace (added p (loading_off (shown_price formatted (sent formData p))))
    with (opening ++ [Fetch (prediction_request (features formData));
                      Assign ResultClassName "result success";
                      Assign ResultInnerHTML (price_markup formatted);
                      Assign ResultDisplay "block";
                      SetTimeout HideResult 10000] ++ closing)%list
    by (symmetry; apply added_app; journal; reflexivity).
  reflexivity.
Qed.

Lemma C9_truthy_price_rendered_witness :
  let negative := {| status := 200;
                     json := Normal (VObj [("estimated_price", VNum (Fin (-5)))]) |} in
  let text := {| status := 200;
                 json := Normal (VObj [("estimated_price", VStr "abc")]) |} in
  ok negative = true
  /\ ToBoolean (VNum (Fin (-5))) = true
  /\ ToBoolean (VStr "abc") = true
  /\ result_innerHTML (snd (onSubmit sample_form (Resolves negative) blank))
     = price_markup "-$5"
  /\ result_innerHTML (snd (onSubmit sample_form (Resolves text) blank))
     = price_markup "$NaN".
Proof.
  intros negative text.
  destruct (C9_truthy_price_rendered sample_form negative _ (VNum (Fin (-5))) _ blank
              eq_refl eq_refl eq_refl eq_refl eq_refl)
    as (f1 & F1 & _ & _ & _ & H1 & _).
  destruct (C9_truthy_price_rendered sample_form text _ (VStr "abc") _ blank
              eq_refl eq_refl eq_refl eq_refl eq_refl)
    as (f2 & F2 & _ & _ & _ & H2 & _).
  split; [reflexivity |]. split; [reflexivity |]. split; [reflexivity |].
  split.
  - rewrite H1. vm_compute in F1. injection F1 as <-. reflexivity.
  - rewrite H2. vm_compute in F2. injection F2 as <-. reflexivity.
Defined.

(** C9 as stated fails on a truthy price that cannot be converted: with
    status 200 and an [estimated_price] that is an object with an own
    [toString] property (a number, so not callable), the success branch is
    entered, [formatPrice] throws a TypeError, the [catch] block takes over
    and the result area shows the network-error message, not a price. *)
Lemma C9_counterexample :
  let price := VObj [("toString", VNum (Fin 1))] in
  let r := {| status := 200; json := Normal (VObj [("estimated_price", price)]) |} in
  let p' := snd (onSubmit sample_form (Resolves r) blank) in
  ok r = true
  /\ ToBoolean price = true
  /\ formatPrice price = Throw not_primitive
  /\ result_className p' = "result error"
  /\ result_innerHTML p'
     = "<div>❌ Network error - please check if the API server is running</div>"
  /\ ~ (exists formatted, result_innerHTML p' = price_markup formatted).
Proof.
  cbv zeta. repeat split; try (vm_compute; reflexivity).
  intros [formatted H]. vm_compute in H. discriminate H.
Qed.

(** ** Further properties of the submit listener *)

Import Session.

Lemma respond_price_unreadable r data e p :
  json r = Normal data -> ok r = true ->
  Get data "estimated_price" = Throw e ->
  respond r p = (Throw e, p).
Proof.
  intros E1 E2 E3. unfold respond, bind, lift, ret. now rewrite E1, E2, E3.
Qed.

Lemma respond_error_unreadable r data e p :
  json r = Normal data -> ok r = false ->
  Get data "error" = Throw e ->
  respond r p = (Throw e, p).
Proof.
  intros E1 E2 E3. unfold respond, bind, lift, ret. now rewrite E1, E2, E3.
Qed.

Lemma showResult_error_ending fd p message c q :
  showResult message true VNull (sent fd p) = (c, q) ->
  ending fd p (match c with
               | Normal _ => loading_off q
               | Throw e => loading_off (caught e q)
               end).
Proof.
  destruct (ToString message) as [text | e] eqn:T.
  - rewrite (showResult_error _ _ _ T). intros H. injection H as <- <-.
    exact (ends_declined fd p text).
  - rewrite (showResult_error_throws _ _ _ T). intros H. injection H as <- <-.
    exact (ends_caught_error fd p e).
Qed.

Lemma onSubmit_ending fd net p :
  fst (onSubmit fd net p) = Normal tt /\ ending fd p (snd (onSubmit fd net p)).
Proof.
  destruct net as [e | r].
  { rewrite onSubmit_rejects. split; [reflexivity | exact (ends_caught fd p e)]. }
  rewrite onSubmit_resolves.
  assert (K : forall c q, respond r (sent fd p) = (c, q) ->
              ending fd p (match c with
                           | Normal _ => loading_off q
                           | Throw e => loading_off (caught e q)
                           end)).
  { intros c q.
    destruct (json r) as [data | e] eqn:J.
    2:{ rewrite (respond_unreadable r e _ J). intros H. injection H as <- <-.
        exact (ends_caught fd p e). }
    destruct (ok r) eqn:O.
    - destruct (Get data "estimated_price") as [price | e] eqn:G.
      2:{ rewrite (respond_price_unreadable r data e _ J O G).
          intros H. injection H as <- <-. exact (ends_caught fd p e). }
      destruct (ToBoolean price) eqn:T.
      + rewrite (respond_accepted r data price _ J O G T).
        destruct (formatPrice price) as [f | e] eqn:F.
        * rewrite (showResult_price _ _ _ _ T F). intros H. injection H as <- <-.
          exact (ends_priced fd p f).
        * rewrite (showResult_price_throws _ _ _ _ T F). intros H.
          injection H as <- <-. exact (ends_caught_success fd p e).
      + destruct (Get_readable data _ price "error" G) as [error Ge].
        rewrite (respond_declined r data price error _ J O G T Ge).
        apply showResult_error_ending.
    - destruct (Get data "error") as [error | e] eqn:Ge.
      + rewrite (respond_failed r data error _ J O Ge).
        apply showResult_error_ending.
      + rewrite (respond_error_unreadable r data e _ J O Ge).
        intros H. injection H as <- <-. exact (ends_caught fd p e). }
  destruct (respond r (sent fd p)) as [c q] eqn:R.
  specialize (K c q eq_refl). destruct c as [[] | e]; split; try reflexivity; exact K.
Qed.

(** With a status outside 200..299 a price is never on the page. *)
Lemma onSubmit_ending_failed fd r p :
  ok r = false ->
  let p' := snd (onSubmit fd (Resolves r) p) in
  (exists t, p' = loading_off (shown_error t (sent fd p)))
  \/ (exists e, p' = loading_off (caught e (sent fd p)))
  \/ (exists e, p' = loading_off (caught e (write ResultClassName "result error"
                                             (sent fd p)))).
Proof.
  intros O. cbv zeta. rewrite onSubmit_resolves.
  destruct (json r) as [data | e] eqn:J.
  2:{ rewrite (respond_unreadable r e _ J). right. left. now exists e. }
  destruct (Get data "error") as [error | e] eqn:Ge.
  - rewrite (respond_failed r data error _ J O Ge).
    destruct (ToString (if ToBoolean error then error else VStr "Prediction failed"))
      as [text | e] eqn:T.
    + rewrite (showResult_error _ _ _ T). left. now exists text.
    + rewrite (showResult_error_throws _ _ _ T). right. right. now exists e.
  - rewrite (respond_error_unreadable r data e _ J O Ge). right. left. now exists e.
Qed.

(** Rewrites [added p q] into the list of effects that [q] has after [p]. *)
Ltac added_is :=
  match goal with
  | |- context [added ?p ?q] =>
      erewrite (added_app p q) by (journal; reflexivity)
  end.

(** What every ending has in common, and what tells a price from an
    error. *)
Lemma ending_facts fd p p' :
  ending fd p p' ->
  result_display p' = "block"
  /\ ((exists f,
         result_className p' = "result success"
         /\ result_innerHTML p' = price_markup f
         /\ filter is_timeout (added p p') = [SetTimeout HideResult 10000])
      \/ (exists t,
            result_className p' = "result error"
            /\ result_innerHTML p' = message_markup true t
            /\ filter is_timeout (added p p') = [])).
Proof.
  intros [f | t | e | e | e]; (split; [reflexivity |]).
  - left. exists f. repeat split. added_is. reflexivity.
  - right. exists t. repeat split. added_is. reflexivity.
  - right. exists network_error. repeat split. added_is. reflexivity.
  - right. exists network_error. repeat split. added_is. reflexivity.
  - right. exists network_error. repeat split. added_is. reflexivity.
Qed.

(** X1.  After every submission, whatever the form held and whatever the
    network answered, the result area is displayed and shows one of two
    things: a price, with the success class and exactly one timer of
    10000 ms to hide it, or an error message with the cross mark, with the
    error class and no timer.  The listener never renders the check-mark
    message of [showResult]. *)
Theorem X1_price_or_error (formData : FormData) (net : Network) (p : Page) :
  let p' := snd (onSubmit formData net p) in
  result_display p' = "block"
  /\ ((exists formatted,
         result_className p' = "result success"
         /\ result_innerHTML p' = price_markup formatted
         /\ filter is_timeout (added p p') = [SetTimeout HideResult 10000])
      \/ (exists text,
            result_className p' = "result error"
            /\ result_innerHTML p' = message_markup true text
            /\ filter is_timeout (added p p') = [])).
Proof.
  exact (ending_facts formData p _ (proj2 (onSubmit_ending formData net p))).
Qed.

(** X2.  Every submission sends exactly one request, to
    [/api/get_predicted_price], with method POST, the JSON content type and
    the JSON text of the twelve-element array as body; this holds when
    fields are missing or do not parse, and nothing is sent again after a
    failure. *)
Theorem X2_one_request (formData : FormData) (net : Network) (p : Page) :
  List.length (features formData) = 12%nat
  /\ inputFeatures formData p = (Normal (features formData), p)
  /\ requests (added p (snd (onSubmit formData net p)))
     = [ {| url := "/api/get_predicted_price";
            method := "POST";
            headers := [("Content-Type", "application/json")];
            body := Some (body_of (map entry_text (features formData))) |} ].
Proof.
  split; [reflexivity |]. split; [apply inputFeatures_run |].
  rewrite onSubmit_requests. unfold prediction_request at 1.
  now rewrite <- body_of_features.
Qed.

(** X3.  A response with a status outside 200..299 is never rendered as a
    price, even when its body carries an [estimated_price]: the result area
    gets the error class and an error message, the success class is never
    assigned and no timer is started. *)
Theorem X3_failed_status_never_priced
  (formData : FormData) (r : Response) (p : Page) :
  ok r = false ->
  let p' := snd (onSubmit formData (Resolves r) p) in
  result_className p' = "result error"
  /\ (exists text, result_innerHTML p' = message_markup true text)
  /\ result_display p' = "block"
  /\ filter is_timeout (added p p') = []
  /\ ~ In (Assign ResultClassName "result success") (added p p').
Proof.
  intros O. cbv zeta.
  destruct (onSubmit_ending_failed formData r p O) as [[t E] | [[e E] | [e E]]];
    rewrite E; (split; [reflexivity |]);
    (split; [eexists; reflexivity |]); (split; [reflexivity |]);
    added_is; (split; [reflexivity |]);
    simpl; intros H;
    repeat (destruct H as [H | H]; [discriminate H |]); exact H.
Qed.

Lemma X3_failed_status_never_priced_witness :
  let r := {| status := 500;
              json := Normal (VObj [("estimated_price", VNum (Fin 650000))]) |} in
  ok r = false
  /\ result_className (snd (onSubmit sample_form (Resolves r) blank)) = "result error"
  /\ result_innerHTML (snd (onSubmit sample_form (Resolves r) blank))
     = "<div>❌ Prediction failed</div>".
Proof.
  intros r. split; [reflexivity |].
  pose proof (X3_failed_status_never_priced sample_form r blank eq_refl) as H.
  cbv zeta in H. split; [apply H | reflexivity].
Defined.

(** X4.  A response whose body is the JSON value [null] is reported as a
    network error, whatever its status: reading a property of [null]
    throws a TypeError, which the [catch] block logs and renders. *)
Theorem X4_null_body_is_network_error
  (formData : FormData) (r : Response) (p : Page) :
  json r = Normal VNull ->
  let p' := snd (onSubmit formData (Resolves r) p) in
  fst (onSubmit formData (Resolves r) p) = Normal tt
  /\ result_className p' = "result error"
  /\ result_innerHTML p'
     = "<div>❌ Network error - please check if the API server is running</div>"
  /\ exists message, In (ConsoleError "Error:" (TypeError message)) (added p p').
Proof.
  intros J. cbv zeta. rewrite onSubmit_resolves.
  destruct (ok r) eqn:O.
  - rewrite (respond_price_unreadable r VNull _ _ J O eq_refl). cbn [fst snd].
    repeat split. eexists. added_is. simpl. right. right. right. right. right. left.
    reflexivity.
  - rewrite (respond_error_unreadable r VNull _ _ J O eq_refl). cbn [fst snd].
    repeat split. eexists. added_is. simpl. right. right. right. right. right. left.
    reflexivity.
Qed.

Lemma X4_null_body_is_network_error_witness :
  let r := {| status := 200; json := Normal VNull |} in
  json r = Normal VNull
  /\ result_innerHTML (snd (onSubmit sample_form (Resolves r) blank))
     = "<div>❌ Network error - please check if the API server is running</div>".
Proof.
  intros r. split; [reflexivity |].
  pose proof (X4_null_body_is_network_error sample_form r blank eq_refl) as H.
  cbv zeta in H. apply H.
Defined.

(** X5.  A response whose body has neither an [estimated_price] nor an
    [error] (an empty object, an array, a string, a number, a boolean) is
    rendered as the error [Prediction failed], whatever its status. *)
Theorem X5_body_without_fields
  (formData : FormData) (r : Response) (data : JSValue) (p : Page) :
  json r = Normal data ->
  Get data "estimated_price" = Normal VUndefined ->
  Get data "error" = Normal VUndefined ->
  let p' := snd (onSubmit formData (Resolves r) p) in
  p' = loading_off (shown_error "Prediction failed" (sent formData p))
  /\ result_className p' = "result error"
  /\ result_innerHTML p' = "<div>❌ Prediction failed</div>"
  /\ result_display p' = "block".
Proof.
  intros J G Ge. cbv zeta. rewrite onSubmit_resolves.
  assert (E : respond r (sent formData p)
              = (Normal tt, shown_error "Prediction failed" (sent formData p))).
  { destruct (ok r) eqn:O.
    - rewrite (respond_declined r data VUndefined VUndefined _ J O G eq_refl Ge).
      reflexivity.
    - rewrite (respond_failed r data VUndefined _ J O Ge). reflexivity. }
  rewrite E. repeat split.
Qed.

Lemma X5_body_without_fields_witness :
  let r := {| status := 200; json := Normal (VArr []) |} in
  Get (VArr []) "estimated_price" = Normal VUndefined
  /\ Get (VArr []) "error" = Normal VUndefined
  /\ result_innerHTML (snd (onSubmit sample_form (Resolves r) blank))
     = "<div>❌ Prediction failed</div>".
Proof.
  intros r. split; [reflexivity |]. split; [reflexivity |].
  pose proof (X5_body_without_fields sample_form r (VArr []) blank
                eq_refl eq_refl eq_refl) as H.
  cbv zeta in H. apply H.
Defined.

(** X6.  The two handlers work on separate parts of the page: a submission
    never changes the status indicator, and the status check never changes
    the result area, the submit control or the loading indicator.  The
    status check sends one GET to [/api/], without a body. *)
Theorem X6_separate_parts
  (formData : FormData) (net : Network) (p : Page) :
  (let p' := snd (onSubmit formData net p) in
   apiStatus_className p' = apiStatus_className p
   /\ apiStatus_textContent p' = apiStatus_textContent p
   /\ apiStatus_display p' = apiStatus_display p)
  /\ (let p' := snd (checkApiStatus net p) in
      result_className p' = result_className p
      /\ result_innerHTML p' = result_innerHTML p
      /\ result_display p' = result_display p
      /\ predictBtn_disabled p' = predictBtn_disabled p
      /\ btnText_opacity p' = btnText_opacity p
      /\ loading_display p' = loading_display p
      /\ requests (added p p')
         = [ {| url := "/api/"; method := "GET"; headers := []; body := None |} ]).
Proof.
  split.
  - destruct (onSubmit_ending formData net p) as [_ [f | t | e | e | e]];
      repeat split.
  - assert (E : checkApiStatus net p
                = (Normal tt, if answered net then online p else offline p)).
    { destruct net as [e | r]; [reflexivity |].
      unfold checkApiStatus, try_catch, bind. simpl. now destruct (ok r). }
    rewrite E. cbn [snd].
    destruct (answered net); repeat split; added_is; reflexivity.
Qed.

(** X7.  A hide timer is never cancelled.  When a submission has rendered
    a price, its timer of 10000 ms is pending; a later submission that ends
    in an error starts no timer and removes none, so when the pending one
    fires it hides the error message. *)
Theorem X7_stale_timer_hides_error
  (first second : FormData * Network) (p : Page) :
  let p1 := submit p first in
  let p2 := submit p1 second in
  let p3 := snd (run_callback HideResult p2) in
  result_className p1 = "result success" ->
  result_className p2 = "result error" ->
  filter is_timeout (added p p1) = [SetTimeout HideResult 10000]
  /\ filter is_timeout (added p1 p2) = []
  /\ result_display p2 = "block"
  /\ result_display p3 = "none"
  /\ result_className p3 = "result error"
  /\ result_innerHTML p3 = result_innerHTML p2.
Proof.
  intros p1 p2 p3 S1 S2.
  destruct (ending_facts (fst first) p p1 (proj2 (onSubmit_ending _ _ _)))
    as [_ [(f & _ & _ & T1) | (t & C & _)]].
  2:{ exfalso.
      assert (K : "result error" = "result success") by (rewrite <- C; exact S1).
      discriminate K. }
  destruct (ending_facts (fst second) p1 p2 (proj2 (onSubmit_ending _ _ _)))
    as [D2 [(f' & C & _) | (t & _ & _ & T2)]].
  { exfalso.
    assert (K : "result success" = "result error") by (rewrite <- C; exact S2).
    discriminate K. }
  repeat split; try assumption.
Qed.

Lemma X7_stale_timer_hides_error_witness :
  let priced := {| status := 200;
                   json := Normal (VObj [("estimated_price", VNum (Fin 650000))]) |} in
  let p1 := submit blank (sample_form, Resolves priced) in
  let p2 := submit p1 (sample_form, Rejects (TypeError "Failed to fetch")) in
  result_className p1 = "result success"
  /\ result_className p2 = "result error"
  /\ result_display p2 = "block"
  /\ result_display (snd (run_callback HideResult p2)) = "none".
Proof.
  intros priced p1 p2.
  assert (S1 : result_className p1 = "result success") by reflexivity.
  assert (S2 : result_className p2 = "result error") by reflexivity.
  pose proof (X7_stale_timer_hides_error (sample_form, Resolves priced)
                (sample_form, Rejects (TypeError "Failed to fetch")) blank S1 S2)
    as H.
  split; [exact S1 |]. split; [exact S2 |]. split; apply H.
Defined.

(** ** Sessions *)

Lemma onSubmit_added fd net p :
  exists l,
    added p (snd (onSubmit fd net p))
    = (opening ++ Fetch (prediction_request (features fd)) :: l ++ closing)%list
    /\ forallb rendering l = true
    /\ journal (snd (onSubmit fd net p))
       = (journal p ++ added p (snd (onSubmit fd net p)))%list.
Proof.
  destruct (onSubmit_shape fd net p) as (q & l & E & J & R).
  rewrite E. cbn [snd]. exists l.
  assert (K : journal (loading_off q)
              = (journal p ++ opening
                   ++ Fetch (prediction_request (features fd)) :: l ++ closing)%list).
  { journal. rewrite J, <- !app_assoc. reflexivity. }
  rewrite (added_app _ _ _ K). now repeat split.
Qed.

Lemma rendering_no_disable l : forallb rendering l = true -> filter is_disable l = [].
Proof.
  induction l as [| e l IH]; simpl; [reflexivity |].
  intros H. apply andb_true_iff in H as [He Hl].
  rewrite (IH Hl). now destruct e.
Qed.

Lemma added_trans p q r :
  journal q = (journal p ++ added p q)%list ->
  journal r = (journal q ++ added q r)%list ->
  added p r = (added p q ++ added q r)%list
  /\ journal r = (journal p ++ added p r)%list.
Proof.
  intros H1 H2.
  assert (K : journal r = (journal p ++ added p q ++ added q r)%list)
    by (rewrite H2, H1 at 1; now rewrite <- app_assoc).
  rewrite (added_app _ _ _ K). now split.
Qed.

Lemma added_refl p : added p p = [] /\ journal p = (journal p ++ added p p)%list.
Proof.
  assert (K : added p p = []) by (apply added_app; now rewrite app_nil_r).
  rewrite K, app_nil_r. now split.
Qed.

(** X8.  Over any sequence of submissions the listener sends one request
    per submission, in order, each for the entries the form held then; it
    disables the submit control once and re-enables it once per submission;
    and after the last one the control is enabled and the loading indicator
    hidden. *)
Theorem X8_sessions (l : list (FormData * Network)) (p : Page) :
  let p' := submit_all l p in
  requests (added p p') = map (fun s => prediction_request (features (fst s))) l
  /\ filter is_disable (added p p') = repeat (SetDisabled true) (List.length l)
  /\ filter is_enable (added p p') = repeat (SetDisabled false) (List.length l)
  /\ (l <> [] ->
      predictBtn_disabled p' = false
      /\ btnText_opacity p' = "1"
      /\ loading_display p' = "none").
Proof.
  cbv zeta.
  assert (G : forall l p,
             journal (submit_all l p) = (journal p ++ added p (submit_all l p))%list
             /\ requests (added p (submit_all l p))
                = map (fun s => prediction_request (features (fst s))) l
             /\ filter is_disable (added p (submit_all l p))
                = repeat (SetDisabled true) (List.length l)
             /\ filter is_enable (added p (submit_all l p))
                = repeat (SetDisabled false) (List.length l)).
  { clear. induction l as [| [fd net] l IH]; intros p.
    - simpl. destruct (added_refl p) as [-> _]. rewrite app_nil_r. now repeat split.
    - change (submit_all ((fd, net) :: l) p)
        with (submit_all l (submit p (fd, net))).
      destruct (IH (submit p (fd, net))) as (J & Rq & Ds & En).
      destruct (onSubmit_added fd net p) as (m & A & R & J1).
      change (snd (onSubmit fd net p)) with (submit p (fd, net)) in A, J1.
      destruct (added_trans p _ _ J1 J) as [T J2].
      split; [exact J2 |].
      rewrite T, A. unfold requests in *.
      rewrite !flat_map_app, !filter_app, Rq, Ds, En. simpl.
      rewrite !flat_map_app, !filter_app. fold (requests m).
      rewrite (rendering_no_request m R), (rendering_no_disable m R),
        (no_enable_filter m (rendering_no_enable m R)).
      now repeat split. }
  destruct (G l p) as (_ & H1 & H2 & H3).
  repeat split; try assumption;
    destruct l as [| s l _] using rev_ind; try contradiction;
    unfold submit_all; rewrite fold_left_app; simpl;
    unfold submit at 1;
    destruct (onSubmit_shape (fst s) (snd s) (fold_left submit l p))
      as (q & m & E & _); rewrite E; reflexivity.
Qed.

Lemma X8_sessions_witness :
  ([(sample_form, Rejects (TypeError "Failed to fetch"))] <> [])
  /\ predictBtn_disabled
       (submit_all [(sample_form, Rejects (TypeError "Failed to fetch"))] blank)
     = false.
Proof.
  assert (N : [(sample_form, Rejects (TypeError "Failed to fetch"))] <> [])
    by discriminate.
  split; [exact N |].
  pose proof (X8_sessions [(sample_form, Rejects (TypeError "Failed to fetch"))]
                blank) as H.
  cbv zeta in H. destruct H as (_ & _ & _ & H). apply (H N).
Defined.

(** X9.  [showResult] assigns the class first.  When it completes, the
    result area is displayed, and a timer of 10000 ms is started exactly
    when [isError] is false, with or without a price.  When it throws
    (the price or the message has no string form) only the class has
    changed: markup and display are as before and no timer is started. *)
Theorem X9_showResult_completes_or_stops_early
  (message : JSValue) (isError : bool) (price : JSValue) (p : Page) :
  let p' := snd (showResult message isError price p) in
  result_className p' = ("result " ++ (if isError then "error" else "success"))%string
  /\ match fst (showResult message isError price p) with
     | Normal _ =>
         result_display p' = "block"
         /\ filter is_timeout (added p p')
            = (if isError then [] else [SetTimeout HideResult 10000])
     | Throw _ =>
         p' = write ResultClassName
                ("result " ++ (if isError then "error" else "success")) p
     end.
Proof.
  cbv zeta. unfold showResult, bind, lift. cbn.
  destruct isError, (ToBoolean price); cbn;
    try (destruct (formatPrice price); cbn);
    try (destruct (ToString message); cbn);
    repeat split; unfold assign, setTimeout, effect, ret; cbn;
    try (unfold added; cbn; rewrite <- ?app_assoc, skipn_app, skipn_all, Nat.sub_diag;
         reflexivity).
Qed.

(** ** Forms with missing or additional entries *)

Lemma absent_get fd name : present fd name = false -> FormData_get fd name = VNull.
Proof.
  unfold present. destruct (FormData_get_cases fd name) as [E | [s E]]; rewrite E.
  - reflexivity.
  - discriminate.
Qed.

(** X10.  A field that the form does not have reads [null] in the body of
    the request, at its position, whether it is one of the fields read with
    [parseInt] or one of the string fields; the array still has twelve
    elements.  The empty form is sent as twelve [null]s. *)
Theorem X10_missing_field_is_null
  (formData : FormData) (position : nat) (name : string) :
  nth_error field_names position = Some name ->
  present formData name = false ->
  nth_error (map entry_text (features formData)) position = Some "null"
  /\ List.length (map entry_text (features formData)) = 12%nat.
Proof.
  intros P A. split; [| reflexivity].
  pose proof (absent_get formData name A) as G.
  do 12 (destruct position as [| position];
         [injection P as <-; unfold features, field_number, field_text;
          simpl; rewrite G; reflexivity |]).
  destruct position; discriminate P.
Qed.

Lemma X10_missing_field_is_null_witness :
  nth_error field_names 9 = Some "parking"
  /\ present [] "parking" = false
  /\ nth_error (map entry_text (features [])) 9 = Some "null"
  /\ body (prediction_request (features []))
     = Some ("{" ++ quoted "input"
               ++ ":[null,null,null,null,null,null,null,null,null,null,null,null]}")%string.
Proof.
  split; [reflexivity |]. split; [reflexivity |].
  destruct (X10_missing_field_is_null [] 9 "parking" eq_refl eq_refl) as [E _].
  split; [exact E |].
  rewrite body_of_features. vm_compute. reflexivity.
Defined.

Lemma present_get_app fd more name :
  present fd name = true ->
  FormData_get (fd ++ more)%list name = FormData_get fd name.
Proof.
  unfold present. induction fd as [| [n v] fd IH]; simpl.
  - discriminate.
  - destruct (String.eqb n name); [reflexivity | exact IH].
Qed.

Lemma other_get name v fd key :
  name <> key -> FormData_get ((name, v) :: fd) key = FormData_get fd key.
Proof.
  intros N. simpl. destruct (String.eqb_spec name key); [contradiction | reflexivity].
Qed.

(** X11.  Only the first entry under each of the twelve names counts.
    Entries that come after a complete set of fields, and entries under any
    other name wherever they stand, leave the array, and so the request,
    unchanged. *)
Theorem X11_additional_entries_ignored
  (formData more : FormData) (name value : string) :
  (all_present formData = true ->
   features (formData ++ more)%list = features formData)
  /\ (~ In name field_names ->
      features ((name, value) :: formData) = features formData).
Proof.
  split.
  - intros H. unfold all_present, field_names in H. simpl in H.
    repeat (apply andb_true_iff in H; destruct H as [?H H]).
    unfold features, field_number, field_text.
    repeat match goal with
           | P : present formData ?n = true |- _ =>
               rewrite (present_get_app formData more n P); clear P
           end.
    reflexivity.
  - intros N. unfold features, field_number, field_text.
    rewrite !other_get; [reflexivity | ..];
      intros ->; apply N; unfold field_names; simpl; tauto.
Qed.

Lemma X11_additional_entries_ignored_witness :
  all_present sample_form = true
  /\ ~ In "notes" field_names
  /\ features (sample_form ++ [("area", "1")])%list = features sample_form
  /\ features (("notes", "sunny") :: sample_form) = features sample_form.
Proof.
  assert (N : ~ In "notes" field_names).
  { unfold field_names. simpl. intros H.
    repeat (destruct H as [H | H]; [discriminate H |]). exact H. }
  destruct (X11_additional_entries_ignored sample_form [("area", "1")]
              "notes" "sunny") as [H1 H2].
  split; [reflexivity |]. split; [exact N |].
  split; [exact (H1 eq_refl) | exact (H2 N)].
Defined.

(** ** The formatted price *)

Import Reading.

Lemma rev_acc_app (s acc : string) :
  Text.rev_acc s acc = (Text.rev s ++ acc)%string.
Proof.
  unfold Text.rev. revert acc.
  induction s as [| c s IH]; intros acc; simpl; [reflexivity |].
  rewrite (IH (String c acc)), (IH (String c EmptyString)), append_assoc.
  reflexivity.
Qed.

Lemma rev_cons (c : ascii) (s : string) :
  Text.rev (String c s) = (Text.rev s ++ String c EmptyString)%string.
Proof. unfold Text.rev at 1. simpl. apply rev_acc_app. Qed.

Lemma append_empty (s : string) : (s ++ EmptyString)%string = s.
Proof. induction s as [| c s IH]; simpl; [reflexivity | now rewrite IH]. Qed.

Lemma rev_app (a b : string) :
  Text.rev (a ++ b) = (Text.rev b ++ Text.rev a)%string.
Proof.
  induction a as [| c a IH]; simpl.
  - now rewrite append_empty.
  - now rewrite !rev_cons, IH, append_assoc.
Qed.

Lemma rev_rev (s : string) : Text.rev (Text.rev s) = s.
Proof.
  induction s as [| c s IH]; [reflexivity |].
  now rewrite rev_cons, rev_app, IH.
Qed.

Lemma without_commas_app (a b : string) :
  without_commas (a ++ b) = (without_commas a ++ without_commas b)%string.
Proof.
  induction a as [| c a IH]; simpl; [reflexivity |].
  destruct (Ascii.eqb c ","); simpl; now rewrite IH.
Qed.

Lemma without_commas_rev (s : string) :
  without_commas (Text.rev s) = Text.rev (without_commas s).
Proof.
  induction s as [| c s IH]; [reflexivity |].
  rewrite rev_cons, without_commas_app, IH. simpl.
  destruct (Ascii.eqb c ","); [apply append_empty | now rewrite rev_cons].
Qed.

Lemma without_commas_group3_rev (s : string) :
  without_commas (Text.group3_rev s) = without_commas s.
Proof.
  assert (G : forall n s, (String.length s <= n)%nat ->
              without_commas (Text.group3_rev s) = without_commas s).
  { clear. induction n as [| n IH]; intros s L.
    - destruct s; [reflexivity | simpl in L; lia].
    - destruct s as [| a [| b [| c [| d r]]]]; try reflexivity.
      change (Text.group3_rev (String a (String b (String c (String d r)))))
        with (String a (String b (String c
                (String ","%char (Text.group3_rev (String d r)))))).
      cbn [without_commas].
      change (Ascii.eqb "," ",") with true. cbv iota.
      rewrite (IH (String d r)) by (simpl in L |- *; lia).
      reflexivity. }
  exact (G (String.length s) s (le_n _)).
Qed.

Lemma without_commas_group3 (s : string) :
  without_commas (Text.group3 s) = without_commas s.
Proof.
  unfold Text.group3.
  now rewrite without_commas_rev, without_commas_group3_rev, without_commas_rev, rev_rev.
Qed.

Lemma without_commas_uint (d : Decimal.uint) :
  without_commas (NilEmpty.string_of_uint d) = NilEmpty.string_of_uint d.
Proof. induction d; simpl; now rewrite ?IHd. Qed.

Lemma without_commas_digits (z : Z) : without_commas (Text.digits z) = Text.digits z.
Proof.
  unfold Text.digits, NilZero.string_of_uint.
  destruct (N.to_uint (Z.to_N z)); try reflexivity; apply without_commas_uint.
Qed.

(** X13.  The commas of a formatted price set off groups of three digits
    counted from the right: a text of up to three digits gets none, and a
    longer one is the formatted text of all but its last three digits, a
    comma, and those three digits. *)
Theorem X13_groups_of_three (s : string) (a b c : ascii) :
  ((String.length s <= 3)%nat -> Text.group3 s = s)
  /\ (s <> EmptyString ->
      Text.group3 (s ++ String a (String b (String c EmptyString)))
      = (Text.group3 s ++ "," ++ String a (String b (String c EmptyString)))%string).
Proof.
  split.
  - intros L. destruct s as [| x [| y [| z [| w r]]]]; try reflexivity.
    simpl in L. lia.
  - intros N. unfold Text.group3.
    rewrite rev_app.
    change (Text.rev (String a (String b (String c EmptyString))))
      with (String c (String b (String a EmptyString))).
    cbn [append].
    destruct (Text.rev s) as [| x r] eqn:E.
    + exfalso. apply N. rewrite <- (rev_rev s), E. reflexivity.
    + change (Text.group3_rev (String c (String b (String a (String x r)))))
        with (String c (String b (String a
                (String ","%char (Text.group3_rev (String x r)))))).
      rewrite !rev_cons, !append_assoc. reflexivity.
Qed.

Lemma X13_groups_of_three_witness :
  (String.length "650" <= 3)%nat
  /\ "1234" <> EmptyString
  /\ Text.group3 "650" = "650"
  /\ Text.group3 "1234567" = (Text.group3 "1234" ++ ",567")%string
  /\ Text.group3 "1234567" = "1,234,567".
Proof.
  assert (L : (String.length "650" <= 3)%nat) by (simpl; lia).
  assert (N : "1234" <> EmptyString) by discriminate.
  destruct (X13_groups_of_three "650" "0" "0" "0") as [H1 _].
  destruct (X13_groups_of_three "1234" "5" "6" "7") as [_ H2].
  split; [exact L |]. split; [exact N |].
  split; [exact (H1 L) |]. split; [exact (H2 N) | reflexivity].
Defined.

(** ** Integer fields *)

Lemma roundToDouble_exact (n : Z) :
  0 < n < 2 ^ 53 -> roundToDouble (inject_Z n) = Fin (inject_Z n).
Proof.
  intros [Hpos Hlt].
  destruct n as [| p | p]; try lia.
  unfold roundToDouble, inject_Z. cbn [Qnum].
  assert (G0 : 0 <= Z.log2 (Z.pos p)) by apply Z.log2_nonneg.
  assert (G1 : Z.log2 (Z.pos p) < 53) by (apply Z.log2_lt_pow2; lia).
  assert (G2 : 2 ^ Z.log2 (Z.pos p) <= Z.pos p) by (apply Z.log2_spec; lia).
  set (g := Z.log2 (Z.pos p)) in *.
  assert (F : floor_log2 (Z.pos p # 1) = g).
  { unfold floor_log2. cbn [Qnum Qden]. change (Z.log2 1) with 0.
    rewrite Z.sub_0_r. fold g.
    unfold scale2, scale. destruct (Z.leb_spec 0 g); [| lia].
    unfold Qle_bool. cbn [Qnum Qden].
    destruct (Z.leb_spec (1 * 2 ^ g * 1) (Z.pos p * 1)); [reflexivity | lia]. }
  unfold round_positive. rewrite F.
  replace (Z.max (g - 52) (-1074)) with (g - 52) by lia.
  set (k := 52 - g). replace (- (g - 52)) with k by lia.
  assert (K0 : 0 <= k) by lia.
  assert (P : 0 < 2 ^ k) by (apply Z.pow_pos_nonneg; lia).
  assert (M : round_half_even (scale2 (Z.pos p # 1) k) = Z.pos p * 2 ^ k).
  { unfold scale2, scale. destruct (Z.leb_spec 0 k); [| lia]. cbn [Qnum Qden].
    unfold round_half_even.
    assert (Fl : Qfloor (Z.pos p * 2 ^ k # 1) = Z.pos p * 2 ^ k)
      by (unfold Qfloor; apply Z.div_1_r).
    rewrite Fl.
    assert (C : ((Z.pos p * 2 ^ k # 1) - inject_Z (Z.pos p * 2 ^ k) ?= 1 # 2)%Q = Lt).
    { rewrite <- Qlt_alt. unfold Qlt, Qminus, Qplus, Qopp, inject_Z.
      cbn [Qnum Qden]. lia. }
    now rewrite C. }
  rewrite M.
  assert (R : Qred (scale2 (inject_Z (Z.pos p * 2 ^ k)) (g - 52)) = (Z.pos p # 1)).
  { transitivity (Qred (Z.pos p # 1));
      [| apply Qcanon.Qred_identity; cbn [Qnum Qden]; apply Z.gcd_1_r].
    apply Qred_complete. unfold scale2, scale, inject_Z, Qeq.
    destruct (Z.leb_spec 0 (g - 52)) as [L | L]; cbn [Qnum Qden].
    - assert (g = 52) by lia. subst k.
      replace (g - 52) with 0 by lia. replace (52 - g) with 0 by lia. simpl. lia.
    - replace (- (g - 52)) with k by lia.
      rewrite Pos2Z.inj_mul, Z2Pos.id by lia. lia. }
  rewrite R.
  assert (B : 2 ^ 53 < 2 ^ 1024) by (apply Z.pow_lt_mono_r; lia).
  unfold Qle_bool. cbn [Qnum Qden inject_Z].
  destruct (Z.leb_spec (2 ^ 1024 * 1) (Z.pos p * 1)); [lia | reflexivity].
Qed.

Lemma digits_prefix_uint (d : Decimal.uint) (rest : string) :
  digits_prefix 10 (NilEmpty.string_of_uint d ++ rest)
  = ((uint_digits d ++ fst (digits_prefix 10 rest))%list,
     snd (digits_prefix 10 rest)).
Proof.
  induction d; cbn [NilEmpty.string_of_uint append uint_digits];
    [now destruct (digits_prefix 10 rest) | ..];
    (cbn [digits_prefix]; cbv beta iota delta [digit_value Text.code];
     cbn; rewrite IHd; reflexivity).
Qed.

Lemma uint_digits_value (d acc : Decimal.uint) :
  fold_left (fun a x => a * 10 + x) (uint_digits d)
    (Z.of_N (DecimalPos.Unsigned.of_lu acc))
  = Z.of_N (DecimalPos.Unsigned.of_lu (Decimal.revapp d acc)).
Proof.
  revert acc.
  induction d; intros acc; cbn [uint_digits fold_left Decimal.revapp];
    [reflexivity | ..];
    (rewrite <- IHd; f_equal; cbn [DecimalPos.Unsigned.of_lu]; lia).
Qed.

Lemma radix_value_digits (n : Z) :
  0 <= n -> radix_value 10 (uint_digits (N.to_uint (Z.to_N n))) = n.
Proof.
  intros H. unfold radix_value.
  change 0 with (Z.of_N (DecimalPos.Unsigned.of_lu Decimal.Nil)).
  rewrite uint_digits_value. fold (Decimal.rev (N.to_uint (Z.to_N n))).
  rewrite <- DecimalPos.Unsigned.of_uint_alt.
  change (Pos.of_uint (N.to_uint (Z.to_N n))) with (N.of_uint (N.to_uint (Z.to_N n))).
  rewrite DecimalN.Unsigned.of_to. now apply Z2N.id.
Qed.

Lemma stops_prefix (tail : string) :
  stops_parseInt tail = true -> digits_prefix 10 tail = ([], tail).
Proof.
  destruct tail as [| c t]; [reflexivity |].
  unfold stops_parseInt. cbn [digits_prefix].
  destruct (digit_value c); [discriminate | reflexivity].
Qed.

Lemma parseInt_numeral (d : Decimal.uint) (tail : string) :
  leading_nonzero d = true ->
  stops_parseInt tail = true ->
  parseInt_string (NilEmpty.string_of_uint d ++ tail)
  = (let v := radix_value 10 (uint_digits d) in
     if v =? 0 then Fin 0 else roundToDouble (inject_Z v)).
Proof.
  intros L S.
  assert (P : fst (digits_prefix 10 (NilEmpty.string_of_uint d ++ tail))
              = uint_digits d).
  { rewrite digits_prefix_uint, (stops_prefix tail S). cbn [fst].
    apply app_nil_r. }
  destruct d; try discriminate L; clear L;
    cbn [NilEmpty.string_of_uint append] in P |- *;
    unfold parseInt_string;
    match goal with
    | |- context [trim_start (String ?c ?R)] =>
        replace (trim_start (String c R)) with (String c R)
          by (destruct R as [| x [| y R']]; reflexivity)
    end;
    cbv beta iota; rewrite P; reflexivity.
Qed.

Lemma nzhead_leading (d : Decimal.uint) :
  Decimal.nzhead d = Decimal.Nil \/ leading_nonzero (Decimal.nzhead d) = true.
Proof. induction d; simpl; auto. Qed.

Lemma to_uint_leading (p : positive) : leading_nonzero (Pos.to_uint p) = true.
Proof.
  assert (U : Decimal.unorm (Pos.to_uint p) = Pos.to_uint p).
  { rewrite <- DecimalPos.Unsigned.to_of, DecimalPos.Unsigned.of_to. reflexivity. }
  pose proof (DecimalPos.Unsigned.to_uint_nonzero p) as Z.
  unfold Decimal.unorm in U.
  destruct (nzhead_leading (Pos.to_uint p)) as [E | E].
  - rewrite E in U. symmetry in U. contradiction.
  - destruct (Decimal.nzhead (Pos.to_uint p)); try discriminate E;
      rewrite <- U; reflexivity.
Qed.

Lemma parseInt_zero (tail : string) :
  stops_parseInt tail = true -> parseInt_string ("0" ++ tail) = Fin 0.
Proof.
  destruct tail as [| c t]; [reflexivity |].
  intros S. cbn in S.
  destruct c as [[] [] [] [] [] [] [] []]; try discriminate S;
    destruct t as [| y t']; reflexivity.
Qed.

Lemma parseInt_digits (n : Z) (tail : string) :
  0 <= n < 2 ^ 53 ->
  stops_parseInt tail = true ->
  parseInt_string (Text.digits n ++ tail) = Fin (inject_Z n).
Proof.
  intros [H0 H1] S.
  destruct n as [| p | p]; try lia.
  - now apply parseInt_zero.
  - unfold Text.digits.
    pose proof (to_uint_leading p) as L.
    change (N.to_uint (Z.to_N (Z.pos p))) with (Pos.to_uint p).
    unfold NilZero.string_of_uint.
    replace (match Pos.to_uint p with
             | Decimal.Nil => "0"%string
             | _ => NilEmpty.string_of_uint (Pos.to_uint p)
             end)
      with (NilEmpty.string_of_uint (Pos.to_uint p))
      by (destruct (Pos.to_uint p); try reflexivity; discriminate L).
    rewrite (parseInt_numeral _ _ L S). cbv zeta.
    change (Pos.to_uint p) with (N.to_uint (Z.to_N (Z.pos p))).
    rewrite radix_value_digits by lia.
    destruct (Z.eqb_spec (Z.pos p) 0); [lia |].
    apply roundToDouble_exact. lia.
Qed.

(** ** Integers written back *)

Lemma floor_scale10 (n k L : Z) :
  k <= L -> Qfloor (scale10 (inject_Z n) (k - L)) = n / 10 ^ (L - k).
Proof.
  intros H. unfold scale10, scale, inject_Z. cbn [Qnum Qden].
  assert (P : 0 < 10 ^ (L - k)) by (apply Z.pow_pos_nonneg; lia).
  destruct (Z.leb_spec 0 (k - L)).
  - replace (k - L) with 0 by lia. replace (L - k) with 0 by lia.
    unfold Qfloor. cbn [Qnum Qden]. change (10 ^ 0) with 1.
    now rewrite Z.mul_1_r.
  - unfold Qfloor. cbn [Qnum Qden]. replace (- (k - L)) with (L - k) by lia.
    rewrite Pos2Z.inj_mul, Z2Pos.id by lia. now rewrite Z.mul_1_l.
Qed.

Lemma back_integer (c n e : Z) :
  0 <= e -> 0 < c * 10 ^ e < 2 ^ 53 ->
  Number_eqb (roundToDouble (scale10 (inject_Z c) e)) (Fin (inject_Z n))
  = (c * 10 ^ e =? n).
Proof.
  intros He Hc.
  assert (E : scale10 (inject_Z c) e = inject_Z (c * 10 ^ e)).
  { unfold scale10, scale, inject_Z. cbn [Qnum Qden].
    destruct (Z.leb_spec 0 e); [reflexivity | lia]. }
  rewrite E, (roundToDouble_exact _ Hc). unfold Number_eqb.
  destruct (Z.eqb_spec (c * 10 ^ e) n) as [-> | N].
  - apply Qeq_bool_iff. reflexivity.
  - destruct (Qeq_bool (inject_Z (c * 10 ^ e)) (inject_Z n)) eqn:Q; [| reflexivity].
    apply Qeq_bool_iff in Q. unfold Qeq, inject_Z in Q. cbn [Qnum Qden] in Q. lia.
Qed.

(** On a whole number below [10^15] the search of Number::toString ends
    on digits [s] and a count [k] with [s * 10^(L-k) = n]. *)
Lemma shortest_digits_integer (n L : Z) (fuel : nat) (k : Z) :
  0 < n < 10 ^ 15 ->
  10 ^ (L - 1) <= n < 10 ^ L ->
  1 <= k <= L ->
  L - k <= Z.of_nat fuel ->
  exists s k',
    shortest_digits fuel k (inject_Z n) L = (s, k', L)
    /\ k <= k' <= L /\ 0 < s /\ s * 10 ^ (L - k') = n.
Proof.
  intros Hn HL. revert k.
  assert (L15 : L <= 15).
  { destruct (Z.le_gt_cases L 15) as [|G]; [assumption |].
    assert (10 ^ 15 <= 10 ^ (L - 1)) by (apply Z.pow_le_mono_r; lia). lia. }
  assert (B : 10 ^ 15 + 10 ^ 15 < 2 ^ 53) by (vm_compute; reflexivity).
  induction fuel as [| fuel IH]; intros k Hk Hf.
  - assert (k = L) by lia. subst k.
    cbn [shortest_digits]. rewrite (floor_scale10 n L L) by lia.
    rewrite Z.sub_diag. change (10 ^ 0) with 1. rewrite Z.div_1_r.
    rewrite !back_integer by (change (10 ^ 0) with 1; lia).
    change (10 ^ 0) with 1. rewrite !Z.mul_1_r, Z.eqb_refl.
    destruct (Z.eqb_spec (n + 1) n); [lia |].
    destruct (Z.eqb_spec n (10 ^ L)); [lia |].
    exists n, L. rewrite Z.sub_diag. change (10 ^ 0) with 1. repeat split; lia.
  - cbn [shortest_digits]. rewrite (floor_scale10 n k L) by lia.
    set (e := L - k). assert (He : 0 <= e) by lia.
    assert (P : 0 < 10 ^ e) by (apply Z.pow_pos_nonneg; lia).
    assert (Pe : 10 ^ e <= 10 ^ 15) by (apply Z.pow_le_mono_r; lia).
    pose proof (Z.div_mod n (10 ^ e) ltac:(lia)) as DM.
    pose proof (Z.mod_pos_bound n (10 ^ e) P) as MB.
    set (lo := n / 10 ^ e) in *.
    assert (Hlo : 0 < lo).
    { assert (10 ^ e <= n).
      { transitivity (10 ^ (L - 1)); [apply Z.pow_le_mono_r; lia | lia]. }
      destruct (Z.lt_ge_cases 0 lo); [assumption | nia]. }
    assert (Hk10 : lo < 10 ^ k).
    { assert (E : 10 ^ L = 10 ^ k * 10 ^ e)
        by (rewrite <- Z.pow_add_r by lia; f_equal; lia).
      destruct (Z.lt_ge_cases lo (10 ^ k)); [assumption | nia]. }
    rewrite !back_integer by nia.
    destruct (Z.eqb_spec ((lo + 1) * 10 ^ e) n); [nia |].
    destruct (Z.eqb_spec (lo * 10 ^ e) n) as [E | N].
    + destruct (Z.eqb_spec lo (10 ^ k)); [lia |].
      exists lo, k. repeat split; solve [lia | exact E].
    + assert (k < L).
      { destruct (Z.lt_ge_cases k L); [assumption |].
        assert (e = 0) by lia. exfalso. apply N.
        replace e with 0 in * by lia. change (10 ^ 0) with 1 in *. nia. }
      destruct (IH (k + 1)) as (s & k' & E & K & S & V); [lia | lia |].
      exists s, k'. rewrite E. repeat split; solve [lia | exact V].
Qed.

Lemma radix_value_uint (d : Decimal.uint) :
  radix_value 10 (uint_digits d) = Z.of_N (N.of_uint d).
Proof.
  unfold radix_value.
  change 0 with (Z.of_N (DecimalPos.Unsigned.of_lu Decimal.Nil)).
  rewrite uint_digits_value. fold (Decimal.rev d).
  now rewrite <- DecimalPos.Unsigned.of_uint_alt.
Qed.

Lemma digits_of_numeral (d : Decimal.uint) :
  leading_nonzero d = true ->
  Text.digits (radix_value 10 (uint_digits d)) = NilEmpty.string_of_uint d.
Proof.
  intros L. rewrite radix_value_uint. unfold Text.digits.
  rewrite N2Z.id, DecimalN.Unsigned.to_of.
  destruct d; try discriminate L; reflexivity.
Qed.

Lemma numeral_of_positive (p : positive) :
  leading_nonzero (Pos.to_uint p) = true
  /\ radix_value 10 (uint_digits (Pos.to_uint p)) = Z.pos p
  /\ Text.digits (Z.pos p) = NilEmpty.string_of_uint (Pos.to_uint p).
Proof.
  pose proof (to_uint_leading p) as L.
  assert (V : radix_value 10 (uint_digits (Pos.to_uint p)) = Z.pos p)
    by (apply (radix_value_digits (Z.pos p)); lia).
  repeat split; try assumption.
  rewrite <- V at 1. now apply digits_of_numeral.
Qed.

Lemma string_append_zeros (d : Decimal.uint) (z : nat) :
  NilEmpty.string_of_uint (append_zeros d z)
  = (NilEmpty.string_of_uint d ++ Text.repeat_char "0" z)%string.
Proof.
  induction d; cbn [append_zeros NilEmpty.string_of_uint append];
    try (now rewrite IHd).
  induction z as [| z IH]; [reflexivity |]. cbn. now rewrite <- IH.
Qed.

Lemma fold_zeros (z : nat) (acc : Z) :
  fold_left (fun a x => a * 10 + x) (uint_digits (Nat.iter z Decimal.D0 Decimal.Nil)) acc
  = acc * 10 ^ Z.of_nat z.
Proof.
  revert acc. induction z as [| z IH]; intros acc.
  - simpl. lia.
  - cbn [Nat.iter nat_rect uint_digits fold_left].
    change (nat_rect _ Decimal.Nil (fun _ => Decimal.D0) z)
      with (Nat.iter z Decimal.D0 Decimal.Nil).
    rewrite IH, Nat2Z.inj_succ, Z.pow_succ_r by lia. lia.
Qed.

Lemma value_append_zeros (d : Decimal.uint) (z : nat) (acc : Z) :
  fold_left (fun a x => a * 10 + x) (uint_digits (append_zeros d z)) acc
  = fold_left (fun a x => a * 10 + x) (uint_digits d) acc * 10 ^ Z.of_nat z.
Proof.
  revert acc.
  induction d; intros acc; cbn [append_zeros uint_digits fold_left];
    try apply IHd.
  apply fold_zeros.
Qed.

Lemma leading_append_zeros (d : Decimal.uint) (z : nat) :
  leading_nonzero d = true -> leading_nonzero (append_zeros d z) = true.
Proof. destruct d; intros H; try discriminate H; reflexivity. Qed.

(** The digits of [s * 10^z] are the digits of [s] followed by [z] zeros. *)
Lemma digits_shift (s z : Z) :
  0 < s -> 0 <= z ->
  Text.digits (s * 10 ^ z) = (Text.digits s ++ Text.zeros z)%string.
Proof.
  intros Hs Hz. destruct s as [| p | p]; try lia.
  destruct (numeral_of_positive p) as (L & V & D).
  rewrite D. unfold Text.zeros. rewrite <- string_append_zeros.
  rewrite <- (digits_of_numeral _ (leading_append_zeros _ (Z.to_nat z) L)).
  f_equal. unfold radix_value in *.
  rewrite value_append_zeros, V, Z2Nat.id by lia. reflexivity.
Qed.

Lemma uint_length (d : Decimal.uint) :
  String.length (NilEmpty.string_of_uint d) = List.length (uint_digits d).
Proof. induction d; simpl; congruence. Qed.

Lemma uint_value_bounds (d : Decimal.uint) (acc : Z) :
  0 <= acc ->
  let v := fold_left (fun a x => a * 10 + x) (uint_digits d) acc in
  let l := Z.of_nat (List.length (uint_digits d)) in
  acc * 10 ^ l <= v < (acc + 1) * 10 ^ l.
Proof.
  revert acc.
  induction d; intros acc Ha; cbn [uint_digits fold_left List.length];
    [cbv zeta; simpl; lia | ..];
    (cbv zeta; rewrite Nat2Z.inj_succ, Z.pow_succ_r by lia;
     match goal with
     | |- context [fold_left _ _ ?a] =>
         specialize (IHd a ltac:(lia)); cbv zeta in IHd
     end;
     assert (0 < 10 ^ Z.of_nat (List.length (uint_digits d)))
       by (apply Z.pow_pos_nonneg; lia);
     nia).
Qed.

(** A positive whole number with [L] decimal digits lies between
    [10^(L-1)] and [10^L]. *)
Lemma digits_length_bounds (n : Z) :
  0 < n ->
  let L := Text.len (Text.digits n) in
  1 <= L /\ 10 ^ (L - 1) <= n < 10 ^ L.
Proof.
  intros Hn. destruct n as [| p | p]; try lia.
  destruct (numeral_of_positive p) as (Ld & V & D).
  cbv zeta. unfold Text.len. rewrite D, uint_length.
  unfold radix_value in V. rewrite <- V.
  destruct (Pos.to_uint p) as [| d | d | d | d | d | d | d | d | d | d];
    try discriminate Ld;
    cbn [uint_digits fold_left List.length];
    rewrite Nat2Z.inj_succ;
    (replace (Z.succ (Z.of_nat (List.length (uint_digits d))) - 1)
       with (Z.of_nat (List.length (uint_digits d))) by lia);
    rewrite Z.pow_succ_r by lia;
    match goal with
    | |- context [fold_left _ _ ?a] =>
        pose proof (uint_value_bounds d a ltac:(lia)) as B; cbv zeta in B
    end;
    assert (0 < 10 ^ Z.of_nat (List.length (uint_digits d)))
      by (apply Z.pow_pos_nonneg; lia);
    (split; [lia | nia]).
Qed.

Lemma decimal_exponent_integer (n : Z) :
  0 < n -> decimal_exponent (inject_Z n) = Text.len (Text.digits n).
Proof.
  intros Hn. destruct (digits_length_bounds n Hn) as (L1 & Lo & Hi).
  unfold decimal_exponent, inject_Z. cbn [Qnum Qden].
  change (Text.len (Text.digits 1)) with 1.
  set (L := Text.len (Text.digits n)) in *.
  unfold scale10, scale. cbn [Qnum Qden].
  destruct (Z.leb_spec 0 (L - 1)); [| lia].
  unfold Qle_bool. cbn [Qnum Qden].
  destruct (Z.leb_spec (1 * 10 ^ (L - 1) * 1) (n * 1)); lia.
Qed.

(** Number::toString writes a whole number below [10^15] with its
    decimal digits. *)
Lemma Number_toString_integer (n : Z) :
  0 <= n < 10 ^ 15 -> Number_toString (Fin (inject_Z n)) = Text.digits n.
Proof.
  intros [H0 H1]. destruct n as [| p | p]; try lia; [reflexivity |].
  unfold Number_toString. change (Qnum (inject_Z (Z.pos p))) with (Z.pos p).
  cbv iota. unfold positive_toString.
  rewrite decimal_exponent_integer by lia.
  destruct (digits_length_bounds (Z.pos p) ltac:(lia)) as (L1 & Lo & Hi).
  set (L := Text.len (Text.digits (Z.pos p))) in *.
  assert (L15 : L <= 15).
  { destruct (Z.le_gt_cases L 15) as [|G]; [assumption |].
    assert (10 ^ 15 <= 10 ^ (L - 1)) by (apply Z.pow_le_mono_r; lia). lia. }
  destruct (shortest_digits_integer (Z.pos p) L 20 1) as (s & k & E & K & S & V);
    try lia.
  rewrite E. unfold layout_digits.
  destruct (Z.leb_spec k L); [| lia].
  destruct (Z.leb_spec L 21); [| lia].
  cbn [andb]. rewrite <- digits_shift by lia. now rewrite V.
Qed.

(** X14.  An integer field that holds the decimal digits of a whole number
    [n] below [10^15], alone or followed by text that starts with a
    character that is neither a digit nor a letter (a decimal point, a
    space), is read as exactly [n], and the request body has those same
    digits at the position of the field. *)
Theorem X14_integer_field_round_trip
  (formData : FormData) (position : nat) (name : string) (n : Z) (tail : string) :
  In (position, name) integer_fields ->
  0 <= n < 10 ^ 15 ->
  stops_parseInt tail = true ->
  FormData_get formData name = VStr (Text.digits n ++ tail) ->
  nth_error (features formData) position = Some (VNum (Fin (inject_Z n)))
  /\ nth_error (map entry_text (features formData)) position
     = Some (Text.digits n).
Proof.
  intros Hin Hn Hs Hg.
  assert (B : 10 ^ 15 < 2 ^ 53) by (vm_compute; reflexivity).
  assert (F : field_number formData name = Fin (inject_Z n)).
  { unfold field_number, field_text. rewrite Hg. apply parseInt_digits; [lia | exact Hs]. }
  assert (K : nth_error (features formData) position
              = Some (VNum (Fin (inject_Z n)))).
  { unfold integer_fields in Hin. simpl in Hin.
    repeat (destruct Hin as [Hin | Hin];
            [injection Hin as <- <-; unfold features; simpl; now rewrite F |]).
    contradiction. }
  split; [exact K |].
  rewrite nth_error_map, K. cbn [option_map]. f_equal.
  change (entry_text (VNum (Fin (inject_Z n))))
    with (Number_toString (Fin (inject_Z n))).
  now apply Number_toString_integer.
Qed.

Lemma X14_integer_field_round_trip_witness :
  let form := ("area", "7420.9 sq ft") :: sample_form in
  In (0%nat, "area") integer_fields
  /\ 0 <= 7420 < 10 ^ 15
  /\ stops_parseInt ".9 sq ft" = true
  /\ FormData_get form "area" = VStr (Text.digits 7420 ++ ".9 sq ft")
  /\ nth_error (map entry_text (features form)) 0 = Some "7420".
Proof.
  intros form.
  assert (I : In (0%nat, "area") integer_fields) by (left; reflexivity).
  assert (R : 0 <= 7420 < 10 ^ 15) by (split; [lia | reflexivity]).
  destruct (X14_integer_field_round_trip form 0 "area" 7420 ".9 sq ft"
              I R eq_refl eq_refl) as [_ H].
  split; [exact I |]. split; [exact R |]. split; [reflexivity |].
  split; [reflexivity | exact H].
Defined.

(** ** Whole-dollar prices *)

Lemma Qred_whole (z : Z) : Qred (z # 1) = (z # 1).
Proof. apply Qcanon.Qred_identity. cbn [Qnum Qden]. apply Z.gcd_1_r. Qed.

Lemma unsigned_decimal_numeral (d : Decimal.uint) :
  leading_nonzero d = true ->
  unsigned_decimal (NilEmpty.string_of_uint d)
  = Some (inject_Z (radix_value 10 (uint_digits d)), EmptyString).
Proof.
  intros L.
  pose proof (digits_prefix_uint d EmptyString) as P.
  rewrite append_empty in P. cbn [digits_prefix fst snd] in P.
  rewrite app_nil_r in P.
  unfold unsigned_decimal. rewrite P. cbv beta iota zeta.
  rewrite app_nil_r.
  destruct (uint_digits d) as [| x l] eqn:E;
    [destruct d; discriminate |].
  cbn [exponent_part List.length Z.of_nat Z.opp].
  unfold scale10, scale, inject_Z. cbn [Z.leb Z.compare Qnum Qden Z.pow Z.pow_pos].
  now rewrite Z.mul_1_r, Qred_whole.
Qed.

Lemma StringToMathValue_numeral (d : Decimal.uint) (negative : bool) :
  leading_nonzero d = true ->
  0 < radix_value 10 (uint_digits d) ->
  StringToMathValue ((if negative then "-" else EmptyString)
                     ++ NilEmpty.string_of_uint d)
  = MReal (inject_Z (let v := radix_value 10 (uint_digits d) in
                     if negative then - v else v)).
Proof.
  intros L V.
  pose proof (unsigned_decimal_numeral d L) as U.
  set (v := radix_value 10 (uint_digits d)) in *.
  destruct d; try discriminate L; clear L; destruct negative;
    cbn [NilEmpty.string_of_uint append] in U |- *;
    unfold StringToMathValue;
    match goal with
    | |- context [trim_start (String ?c ?R)] =>
        replace (trim_start (String c R)) with (String c R)
          by (destruct R as [| x [| y R']]; reflexivity)
    end;
    cbv beta iota zeta delta [non_decimal_literal].
  all: match goal with
       | |- context [strip_prefix ?a (String ?c ?R)] =>
           change (strip_prefix a (String c R)) with (@None string)
       end;
       rewrite U; cbv beta iota;
       change (all_space EmptyString) with true; cbv iota;
       change (Qnum (inject_Z v)) with v;
       destruct (Z.eqb_spec v 0) as [Z | _]; [lia |];
       try reflexivity.
  all: unfold inject_Z, Qopp; cbn [Qnum Qden]; now rewrite Qred_whole.
Qed.

(** The decimal numeral of a whole number is read back as that number. *)
Lemma StringToMathValue_digits (n : Z) :
  StringToMathValue ((if (n <? 0)%Z then "-" else EmptyString) ++ Text.digits (Z.abs n))
  = MReal (inject_Z n).
Proof.
  destruct n as [| p | p]; [reflexivity | |];
    cbn [Z.ltb Z.compare Z.abs]; unfold Text.digits;
    pose proof (to_uint_leading p) as L;
    change (N.to_uint (Z.to_N (Z.pos p))) with (Pos.to_uint p);
    unfold NilZero.string_of_uint;
    replace (match Pos.to_uint p with
             | Decimal.Nil => "0"%string
             | _ => NilEmpty.string_of_uint (Pos.to_uint p)
             end)
      with (NilEmpty.string_of_uint (Pos.to_uint p))
      by (destruct (Pos.to_uint p); try reflexivity; discriminate L);
    pose proof (radix_value_digits (Z.pos p) ltac:(lia)) as R;
    change (N.to_uint (Z.to_N (Z.pos p))) with (Pos.to_uint p) in R.
  - rewrite (StringToMathValue_numeral _ false L) by lia. cbv zeta. now rewrite R.
  - rewrite (StringToMathValue_numeral _ true L) by lia. cbv zeta. now rewrite R.
Qed.

(** Number::toString of a whole number: a minus sign for the negative
    ones, then the digits. *)
Lemma Number_toString_whole (n : Z) :
  - 10 ^ 15 < n < 10 ^ 15 ->
  Number_toString (Fin (inject_Z n))
  = ((if (n <? 0)%Z then "-" else EmptyString) ++ Text.digits (Z.abs n))%string.
Proof.
  intros [Lo Hi]. destruct n as [| p | p]; [reflexivity | |].
  - apply (Number_toString_integer (Z.pos p)). lia.
  - pose proof (Number_toString_integer (Z.pos p) ltac:(lia)) as H.
    unfold Number_toString in H |- *.
    change (Qnum (inject_Z (Z.neg p))) with (Z.neg p).
    change (Qnum (inject_Z (Z.pos p))) with (Z.pos p) in H.
    cbv iota in H |- *.
    change (- inject_Z (Z.neg p))%Q with (inject_Z (Z.pos p)).
    now rewrite H.
Qed.

Lemma round_half_up_whole (n : Z) : round_half_up (inject_Z n) = n.
Proof.
  unfold round_half_up, Qfloor, Qplus, inject_Z. cbn [Qnum Qden].
  change (Z.pos (1 * 2)) with 2.
  replace (n * 2 + 1 * 1) with (1 + n * 2) by lia.
  rewrite Z.div_add by lia. reflexivity.
Qed.

Lemma format_whole (n : Z) :
  format_en_US_USD_0 (MReal (inject_Z n))
  = ((if (n <? 0)%Z then "-$" else "$") ++ Text.group3 (Text.digits (Z.abs n)))%string.
Proof.
  unfold format_en_US_USD_0, integer_digits.
  change (Qnum (inject_Z n)) with n.
  destruct (Z.ltb_spec n 0).
  - change (- inject_Z n)%Q with (inject_Z (- n)).
    rewrite round_half_up_whole. now replace (Z.abs n) with (- n) by lia.
  - rewrite round_half_up_whole. now replace (Z.abs n) with n by lia.
Qed.

Lemma roundToDouble_whole (n : Z) :
  - 2 ^ 53 < n < 2 ^ 53 -> roundToDouble (inject_Z n) = Fin (inject_Z n).
Proof.
  intros B.
  destruct n as [| p | p]; [reflexivity | apply roundToDouble_exact; lia |].
  pose proof (roundToDouble_exact (Z.pos p) ltac:(lia)) as E.
  unfold roundToDouble in E |- *.
  change (Qnum (inject_Z (Z.neg p))) with (Z.neg p).
  change (Qnum (inject_Z (Z.pos p))) with (Z.pos p) in E.
  cbv iota in E |- *.
  change (- inject_Z (Z.neg p))%Q with (inject_Z (Z.pos p)).
  destruct (round_positive (inject_Z (Z.pos p))) as [r |]; [| discriminate E].
  injection E as ->.
  change (Qeq_bool (inject_Z (Z.pos p)) 0) with false. cbv iota.
  change (- inject_Z (Z.pos p))%Q with (Z.neg p # 1).
  now rewrite Qred_whole.
Qed.

(** X12.  [formatPrice] of a whole number of dollars [n] between
    [-10^15] and [10^15] is a dollar sign, preceded by a minus sign when
    [n] is negative, then the decimal digits of [|n|] with commas between
    them, and no decimals.  A price that arrives as the string of its
    decimal digits is formatted as the number is.  Taking the commas out
    gives the decimal digits of [|n|] back. *)
Theorem X12_formatPrice_whole_dollars (n : Z) :
  - 10 ^ 15 < n < 10 ^ 15 ->
  let numeral := ((if (n <? 0)%Z then "-" else EmptyString) ++ Text.digits (Z.abs n))%string in
  let text := Text.group3 (Text.digits (Z.abs n)) in
  formatPrice (VNum (Fin (inject_Z n)))
  = Normal ((if (n <? 0)%Z then "-$" else "$") ++ text)%string
  /\ formatPrice (VStr numeral) = formatPrice (VNum (Fin (inject_Z n)))
  /\ without_commas text = Text.digits (Z.abs n).
Proof.
  intros B. cbv zeta.
  assert (N : NumberToMathValue (Fin (inject_Z n)) = MReal (inject_Z n)).
  { unfold NumberToMathValue.
    now rewrite (Number_toString_whole n B), StringToMathValue_digits. }
  assert (F : formatPrice (VNum (Fin (inject_Z n)))
              = Normal (format_en_US_USD_0 (MReal (inject_Z n)))).
  { unfold formatPrice, ToIntlMathematicalValue. cbn [ToPrimitive andThen].
    now rewrite N. }
  split; [| split].
  - now rewrite F, format_whole.
  - rewrite F. unfold formatPrice, ToIntlMathematicalValue.
    cbn [ToPrimitive andThen]. unfold StringToNumber.
    rewrite StringToMathValue_digits.
    assert (P : 10 ^ 15 < 2 ^ 53) by (vm_compute; reflexivity).
    rewrite roundToDouble_whole by lia. now rewrite N.
  - now rewrite without_commas_group3, without_commas_digits.
Qed.

Lemma X12_formatPrice_whole_dollars_witness :
  - 10 ^ 15 < 650000 < 10 ^ 15
  /\ - 10 ^ 15 < - 1234567 < 10 ^ 15
  /\ formatPrice (VNum (Fin (inject_Z 650000))) = Normal "$650,000"
  /\ formatPrice (VStr "-1234567") = formatPrice (VNum (Fin (inject_Z (- 1234567))))
  /\ formatPrice (VNum (Fin (inject_Z (- 1234567)))) = Normal "-$1,234,567"
  /\ without_commas "1,234,567" = "1234567".
Proof.
  assert (A : - 10 ^ 15 < 650000 < 10 ^ 15) by (split; reflexivity).
  assert (B : - 10 ^ 15 < - 1234567 < 10 ^ 15) by (split; reflexivity).
  destruct (X12_formatPrice_whole_dollars 650000 A) as (H1 & _ & _).
  destruct (X12_formatPrice_whole_dollars (- 1234567) B) as (H2 & H3 & H4).
  split; [exact A |]. split; [exact B |]. split; [exact H1 |].
  split; [exact H3 |]. split; [exact H2 | exact H4].
Defined.

(** ** Quoted strings *)

Lemma read_escaped_char (c : ascii) (rest : string) :
  read_escaped (escape_char c ++ rest) = Some (c, rest).
Proof.
  destruct c as [[] [] [] [] [] [] [] []]; reflexivity.
Qed.

Lemma escape_separates (s t r r' : string) :
  (escape s ++ Text.dquote ++ r)%string = (escape t ++ Text.dquote ++ r')%string ->
  s = t /\ r = r'.
Proof.
  revert t. induction s as [| c s IH]; intros [| c' t] H.
  - cbn in H. injection H as H. now split.
  - exfalso. cbn [escape] in H. rewrite append_assoc in H.
    apply (f_equal read_escaped) in H.
    rewrite read_escaped_char in H. discriminate H.
  - exfalso. cbn [escape] in H. rewrite append_assoc in H.
    apply (f_equal read_escaped) in H.
    rewrite read_escaped_char in H. discriminate H.
  - cbn [escape] in H. rewrite !append_assoc in H.
    apply (f_equal read_escaped) in H.
    rewrite !read_escaped_char in H. injection H as -> H.
    destruct (IH t H) as [-> ->]. now split.
Qed.

Lemma escape_char_printable (c : ascii) :
  forallb (fun x => 32 <=? Text.code x) (list_ascii_of_string (escape_char c)) = true.
Proof.
  destruct c as [[] [] [] [] [] [] [] []]; reflexivity.
Qed.

Lemma list_ascii_app (a b : string) :
  list_ascii_of_string (a ++ b)
  = (list_ascii_of_string a ++ list_ascii_of_string b)%list.
Proof. induction a as [| c a IH]; simpl; [reflexivity | now rewrite IH]. Qed.

(** X15.  The JSON text of a string value can be told from what follows
    it: if two quoted strings, each followed by any text, give the same
    text, the strings are the same and so is what follows.  So distinct
    form values give distinct bodies, and no value can close its own
    quotes.  The quoted text holds no control character. *)
Theorem X15_quoted_strings_separate (s t r r' : string) :
  ((QuoteJSONString s ++ r)%string = (QuoteJSONString t ++ r')%string ->
   s = t /\ r = r')
  /\ forallb (fun x => 32 <=? Text.code x)
       (list_ascii_of_string (QuoteJSONString s)) = true.
Proof.
  split.
  - unfold QuoteJSONString. rewrite !append_assoc. intros H.
    cbn in H. injection H as H. now apply escape_separates.
  - unfold QuoteJSONString. rewrite !list_ascii_app, !forallb_app.
    change (forallb _ (list_ascii_of_string Text.dquote)) with true.
    rewrite andb_true_r. cbn [andb].
    induction s as [| c s IH]; [reflexivity |].
    cbn [escape]. now rewrite list_ascii_app, forallb_app, escape_char_printable, IH.
Qed.

Lemma X15_quoted_strings_separate_witness :
  (QuoteJSONString "yes" ++ ",2]")%string = (QuoteJSONString "yes" ++ ",2]")%string
  /\ ("yes" = "yes" /\ ",2]" = ",2]")
  /\ entry_text (VStr ("a" ++ Text.dquote ++ ",1"))
     = (Text.dquote ++ "a" ++ Text.backslash ++ Text.dquote ++ ",1" ++ Text.dquote)%string.
Proof.
  destruct (X15_quoted_strings_separate "yes" "yes" ",2]" ",2]") as [H _].
  split; [reflexivity |]. split; [exact (H eq_refl) | reflexivity].
Defined.

(** ** Statements that read nothing from the page *)

Lemma replay_app (l1 l2 : list Effect) (p : Page) :
  replay (l1 ++ l2) p = replay l2 (replay l1 p).
Proof. apply fold_left_app. Qed.

Lemma journal_replay (l : list Effect) (p : Page) :
  journal (replay l p) = (journal p ++ l)%list.
Proof.
  revert p. induction l as [| e l IH]; intros p; simpl.
  - now rewrite app_nil_r.
  - change (fold_left apply_effect l (apply_effect p e))
      with (replay l (apply_effect p e)).
    rewrite IH. destruct e; simpl; now rewrite <- app_assoc.
Qed.

Section Blind.

Context {A B : Type}.

Lemma blind_ret (a : A) : blind (ret a).
Proof. exists (Normal a), []. reflexivity. Qed.

Lemma blind_throw (e : Exception) : blind (@throw A e).
Proof. exists (Throw e), []. reflexivity. Qed.

Lemma blind_lift (c : Completion A) : blind (lift c).
Proof. exists c, []. reflexivity. Qed.

Lemma blind_bind (c : Script A) (k : A -> Script B) :
  blind c -> (forall a, blind (k a)) -> blind (bind c k).
Proof.
  intros (r & l & H) K. unfold bind. destruct r as [a | e].
  - destruct (K a) as (r' & l' & H'). exists r', (l ++ l')%list.
    intros p. now rewrite H, H', replay_app.
  - exists (Throw e), l. intros p. now rewrite H.
Qed.

Lemma blind_if (b : bool) (c d : Script A) :
  blind c -> blind d -> blind (if b then c else d).
Proof. now destruct b. Qed.

Lemma blind_try_catch (c : Script A) (h : Exception -> Script A) :
  blind c -> (forall e, blind (h e)) -> blind (try_catch c h).
Proof.
  intros (r & l & H) K. unfold try_catch. destruct r as [a | e].
  - exists (Normal a), l. intros p. now rewrite H.
  - destruct (K e) as (r' & l' & H'). exists r', (l ++ l')%list.
    intros p. now rewrite H, H', replay_app.
Qed.

Lemma blind_try_finally (c : Script A) (f : Script unit) :
  blind c -> blind f -> blind (try_finally c f).
Proof.
  intros (r & l & H) (r' & l' & H'). unfold try_finally.
  destruct r' as [u | e].
  - exists r, (l ++ l')%list. intros p. now rewrite H, H', replay_app.
  - exists (Throw e), (l ++ l')%list. intros p. now rewrite H, H', replay_app.
Qed.

End Blind.

Lemma blind_assign slot value : blind (assign slot value).
Proof. exists (Normal tt), [Assign slot value]. reflexivity. Qed.

Lemma blind_set_disabled value : blind (set_disabled value).
Proof. exists (Normal tt), [SetDisabled value]. reflexivity. Qed.

Lemma blind_effect e :
  match e with Assign _ _ | SetDisabled _ => False | _ => True end ->
  blind (effect e).
Proof.
  intros H. exists (Normal tt), [e]. intros p. unfold effect, replay. simpl.
  destruct e; try contradiction; reflexivity.
Qed.

Ltac blind_step :=
  first
    [ apply blind_bind | apply blind_try_finally | apply blind_try_catch
    | apply blind_assign | apply blind_set_disabled
    | apply blind_lift | apply blind_ret | apply blind_throw
    | apply blind_effect; exact I
    | apply blind_if | intros ? ].

Lemma blind_setLoading b : blind (setLoading b).
Proof. unfold setLoading. destruct b; repeat blind_step. Qed.

Lemma blind_showResult message isError price :
  blind (showResult message isError price).
Proof. unfold showResult, setTimeout. repeat blind_step. Qed.

Lemma blind_fetch request net : blind (fetch request net).
Proof. unfold fetch. destruct net; repeat blind_step. Qed.

Lemma blind_inputFeatures fd : blind (inputFeatures fd).
Proof. unfold inputFeatures. repeat blind_step. Qed.

Lemma blind_onSubmit fd net : blind (onSubmit fd net).
Proof.
  unfold onSubmit, console_error.
  repeat first
    [ apply blind_setLoading | apply blind_showResult | apply blind_fetch
    | apply blind_inputFeatures | blind_step ].
Qed.

Lemma blind_checkApiStatus net : blind (checkApiStatus net).
Proof.
  unfold checkApiStatus, setTimeout.
  repeat first [apply blind_fetch | blind_step].
Qed.

(** X16.  The effects of a submission are decided by the entries of the
    form and the answer of the network alone: the listener reads nothing
    from the page.  On any two pages it has the same effects in the same
    order, and it leaves the same result area, submit control and loading
    indicator, so nothing that was shown before survives a submission. *)
Theorem X16_submission_reads_no_page (formData : FormData) (net : Network) :
  exists effects,
    (forall p,
       onSubmit formData net p = (Normal tt, replay effects p)
       /\ added p (snd (onSubmit formData net p)) = effects)
    /\ (forall p1 p2,
          let q1 := snd (onSubmit formData net p1) in
          let q2 := snd (onSubmit formData net p2) in
          result_className q1 = result_className q2
          /\ result_innerHTML q1 = result_innerHTML q2
          /\ result_display q1 = result_display q2
          /\ predictBtn_disabled q1 = predictBtn_disabled q2
          /\ btnText_opacity q1 = btnText_opacity q2
          /\ loading_display q1 = loading_display q2).
Proof.
  destruct (blind_onSubmit formData net) as (r & l & H).
  exists l.
  assert (R : r = Normal tt).
  { pose proof (proj1 (onSubmit_ending formData net blank)) as E.
    rewrite H in E. exact E. }
  subst r. split.
  - intros p. rewrite H. split; [reflexivity |].
    apply added_app, journal_replay.
  - intros p1 p2. cbv zeta. rewrite !H. cbn [snd].
    pose proof (proj2 (onSubmit_ending formData net blank)) as E.
    rewrite H in E. cbn [snd] in E.
    inversion E as [f Q | t Q | e Q | e Q | e Q];
      apply (f_equal journal) in Q; rewrite journal_replay in Q;
      revert Q; journal; cbn [journal blank app]; intros Q;
      rewrite <- Q; repeat split.
Qed.

(** ** The focus and blur listeners *)

Import Focus.

Lemma dispatch_spec (doc : Document) (ev : Node * Kind) (styles : Styles) (x : Node) :
  dispatch doc ev styles x
  = if is_matched doc (fst ev) && Nat.eqb x (parentElement doc (fst ev))
    then value_of (snd ev)
    else styles x.
Proof.
  destruct ev as [target kind]. unfold dispatch, listeners, is_matched. cbn [fst snd].
  generalize (matched doc) as l. intros l. revert styles.
  induction l as [| a l IH]; intros styles; [reflexivity |].
  cbn [flat_map app fold_left existsb]. rewrite IH. clear IH.
  rewrite (Nat.eqb_sym target a).
  unfold on_focus, on_blur, set_transform.
  destruct (Nat.eqb a target), kind; cbn [andb orb Kind_eqb]; cbv beta;
    destruct (existsb (Nat.eqb target) l),
      (Nat.eqb x (parentElement doc target)); reflexivity.
Qed.

(** X17.  Over any sequence of focus and blur events, the transform of an
    element is the one it had, or one of the two values the listeners
    set; an element that is not the parent of a matched element keeps its
    transform; and after an event on a matched element the transform of
    its parent is [translateY(-2px)] for a focus and [translateY(0)] for a
    blur, whatever it was before. *)
Theorem X17_focus_and_blur
  (doc : Document) (events : list (Node * Kind)) (styles : Styles) (x : Node) :
  (run doc events styles x = styles x
   \/ run doc events styles x = "translateY(-2px)"
   \/ run doc events styles x = "translateY(0)")
  /\ ((forall i, In i (matched doc) -> parentElement doc i <> x) ->
      run doc events styles x = styles x)
  /\ (forall target kind,
        is_matched doc target = true ->
        run doc (events ++ [(target, kind)]) styles (parentElement doc target)
        = value_of kind).
Proof.
  split; [| split].
  - revert styles. induction events as [| ev events IH]; intros styles.
    + now left.
    + cbn [run fold_left]. change (fold_left _ events ?s) with (run doc events s).
      destruct (IH (dispatch doc ev styles)) as [E | [E | E]]; try tauto.
      rewrite E, dispatch_spec.
      destruct (is_matched doc (fst ev) && Nat.eqb x (parentElement doc (fst ev)));
        [destruct (snd ev); tauto | tauto].
  - intros H. revert styles. induction events as [| ev events IH]; intros styles.
    + reflexivity.
    + cbn [run fold_left]. change (fold_left _ events ?s) with (run doc events s).
      rewrite IH, dispatch_spec.
      destruct (is_matched doc (fst ev)) eqn:M; [| reflexivity].
      destruct (Nat.eqb_spec x (parentElement doc (fst ev))) as [E | N];
        [| reflexivity].
      exfalso. unfold is_matched in M. apply existsb_exists in M as (i & Hi & Ei).
      apply Nat.eqb_eq in Ei. subst i. now apply (H (fst ev) Hi).
  - intros target kind M. unfold run. rewrite fold_left_app. cbn [fold_left].
    rewrite dispatch_spec. cbn [fst snd]. now rewrite M, Nat.eqb_refl.
Qed.

Lemma X17_focus_and_blur_witness :
  let doc := {| matched := [1; 2]%nat; parentElement := fun n => (n + 10)%nat |} in
  let styles := fun _ : Node => EmptyString in
  is_matched doc 1%nat = true
  /\ (forall i, In i (matched doc) -> parentElement doc i <> 5%nat)
  /\ run doc [(1, focus); (2, focus); (1, blur)]%nat styles 11%nat = "translateY(0)"
  /\ run doc [(1, focus); (2, focus); (1, blur)]%nat styles 12%nat = "translateY(-2px)"
  /\ run doc [(1, focus); (2, focus); (1, blur)]%nat styles 5%nat = EmptyString.
Proof.
  intros doc styles.
  assert (N : forall i, In i (matched doc) -> parentElement doc i <> 5%nat).
  { intros i [<- | [<- | []]]; discriminate. }
  destruct (X17_focus_and_blur doc [(1, focus); (2, focus)]%nat styles 11%nat)
    as (_ & _ & H3).
  destruct (X17_focus_and_blur doc [(1, focus); (2, focus); (1, blur)]%nat styles 5%nat)
    as (_ & H2 & _).
  split; [reflexivity |]. split; [exact N |].
  split; [exact (H3 1%nat blur eq_refl) |]. split; [reflexivity | exact (H2 N)].
Defined.

(** ** The load listener *)

Import Loading.

Lemma assign_value_spec (id value : string) (controls : Controls) :
  if present controls id then
    exists controls',
      assign_value id value controls = Some controls'
      /\ FormData_get controls' id = VStr value
      /\ (forall k, k <> id -> FormData_get controls' k = FormData_get controls k)
      /\ map fst controls' = map fst controls
  else assign_value id value controls = None.
Proof.
  unfold present.
  induction controls as [| [n v] rest IH]; [reflexivity |].
  cbn [assign_value FormData_get].
  destruct (String.eqb_spec n id) as [-> | N].
  - eexists. split; [reflexivity |]. cbn [FormData_get]. rewrite String.eqb_refl.
    split; [reflexivity |]. split; [| reflexivity].
    intros k K. destruct (String.eqb_spec id k); [congruence | reflexivity].
  - destruct (FormData_get rest id) eqn:G;
      try (now rewrite IH).
    destruct IH as (rest' & -> & G' & O & M).
    eexists. split; [reflexivity |]. cbn [FormData_get map fst].
    destruct (String.eqb_spec n id); [contradiction |].
    split; [exact G' |]. split; [| now rewrite M].
    intros k K. destruct (String.eqb n k); [reflexivity | now apply O].
Qed.

Lemma forallb_same {A} (f g : A -> bool) (l : list A) :
  (forall a, f a = g a) -> forallb f l = forallb g l.
Proof.
  intros H. induction l as [| a l IH]; simpl; [reflexivity | now rewrite H, IH].
Qed.

Lemma set_all_spec (l : list (string * string)) (controls : Controls) :
  map fst (snd (set_all l controls)) = map fst controls
  /\ (forall k, ~ In k (map fst l) ->
        FormData_get (snd (set_all l controls)) k = FormData_get controls k)
  /\ if forallb (fun a => present controls (fst a)) l then
       fst (set_all l controls) = Normal tt
       /\ (NoDup (map fst l) ->
           forall id value, In (id, value) l ->
             FormData_get (snd (set_all l controls)) id = VStr value)
     else exists message, fst (set_all l controls) = Throw (TypeError message).
Proof.
  revert controls. induction l as [| [id value] l IH]; intros controls.
  - cbn. repeat split. intros _ id value [].
  - cbn [set_all forallb fst map]. unfold then_, set_value.
    pose proof (assign_value_spec id value controls) as A.
    destruct (present controls id) eqn:P.
    + destruct A as (c' & -> & G & O & M).
      destruct (IH c') as (M' & O' & R).
      split; [now rewrite M', M |].
      split.
      { intros k K. cbn [In] in K. rewrite O' by tauto. apply O. intros ->. tauto. }
      assert (E : forallb (fun a => present c' (fst a)) l
                  = forallb (fun a => present controls (fst a)) l).
      { apply forallb_same. intros [i v]. cbn [fst]. unfold present.
        destruct (String.eqb_spec i id) as [-> | N].
        - rewrite G. unfold present in P. now destruct (FormData_get controls id).
        - now rewrite (O i N). }
      rewrite <- E. cbn [andb].
      destruct (forallb (fun a => present c' (fst a)) l); [| exact R].
      destruct R as [R1 R2]. split; [exact R1 |].
      intros D i v [H | H].
      * injection H as <- <-. inversion D as [| ? ? Hn _]; subst.
        now rewrite O'.
      * inversion D; subst. now apply R2.
    + rewrite A. cbn [fst snd andb]. repeat split.
      now eexists.
Qed.

Lemma set_sample_values_all (controls : Controls) :
  set_sample_values controls = set_all sample_form controls.
Proof.
  unfold set_sample_values, sample_form. cbn [set_all]. unfold then_.
  repeat match goal with
         | |- context [set_value ?i ?v ?c] =>
             destruct (set_value i v c) as [[[] | ?] ?]; try reflexivity
         end.
Qed.

Lemma sample_names_distinct : NoDup (map fst sample_form).
Proof.
  unfold sample_form. cbn [map fst].
  repeat (constructor;
          [cbn [In]; intros H;
           repeat (destruct H as [H | H]; [discriminate H |]); exact H |]).
  constructor.
Qed.

(** X18.  The load listener starts the status check and assigns the sample
    values in order.  It leaves the controls in their order and touches no
    control but the twelve.  When all twelve exist it completes, and a
    submission of the untouched form builds the array given in the comment
    of the listener, [7420, 4, 2, 3, yes, no, no, no, yes, 2, yes,
    furnished].  When one is missing the listener throws a TypeError. *)
Theorem X18_load_sets_sample_values
  (net : Network) (controls : Controls) (p : Page) :
  let r := onLoad net controls p in
  snd r = snd (checkApiStatus net p)
  /\ map fst (snd (fst r)) = map fst controls
  /\ (forall k, ~ In k field_names ->
        FormData_get (snd (fst r)) k = FormData_get controls k)
  /\ if all_present controls then
       fst (fst r) = Normal tt /\ features (snd (fst r)) = example_input
     else exists message, fst (fst r) = Throw (TypeError message).
Proof.
  cbv zeta. unfold onLoad. rewrite set_sample_values_all.
  destruct (set_all_spec sample_form controls) as (M & O & R).
  destruct (set_all sample_form controls) as [c controls'] eqn:E.
  cbn [fst snd] in *.
  split; [reflexivity |]. split; [exact M |]. split; [exact O |].
  change (forallb (fun a => present controls (fst a)) sample_form)
    with (all_present controls) in R.
  destruct (all_present controls); [| exact R].
  destruct R as [R1 R2]. split; [exact R1 |].
  specialize (R2 sample_names_distinct).
  unfold features, field_number, field_text, example_input.
  rewrite (R2 "area" "7420"), (R2 "bedrooms" "4"), (R2 "bathrooms" "2"),
    (R2 "stories" "3"), (R2 "mainroad" "yes"), (R2 "guestroom" "no"),
    (R2 "basement" "no"), (R2 "hotwaterheating" "no"),
    (R2 "airconditioning" "yes"), (R2 "parking" "2"), (R2 "prefarea" "yes"),
    (R2 "furnishingstatus" "furnished");
    try (unfold sample_form; cbn [In]; tauto).
Qed.
